(** * preprocessing.py: citation-network preprocessing, shallow embedding

    The Python module [preprocessing.py] parses two citation dumps (DBLP V10,
    ACM V8), resolves textual paper ids to integer indices, builds a graph
    and writes or loads a raw dataset.  This file embeds each function of
    the module and states the properties of the specification about them.

    Conventions.
    - A Python exception is a value of [pyerror]; a computation that may
      raise returns [result A].
    - Code that touches the file system runs in [io], a state and error
      monad over [world]; every file-system call is recorded in [w_log].
    - A [dict] with string keys is a [gmap string V]; a Python [list] is a
      [list]; list assignment [l[i] = x] raises [IndexError] out of range. *)

From Stdlib Require Import ZArith String Ascii List Lia.
From stdpp Require Import base option list gmap strings fin_maps pretty.

Local Open Scope string_scope.
Local Open Scope Z_scope.
Local Open Scope nat_scope.
Local Open Scope list_scope.

#[local] Set Warnings "-clear-no-such-hyp".

(** ** Python basics *)

Inductive pyerror : Type :=
  | IndexError
  | KeyError
  | TypeError
  | ValueError
  | AttributeError
  | FileNotFoundError
  | UnsupportedOperation
  | JSONDecodeError.

Inductive result (A : Type) : Type :=
  | Ok (a : A)
  | Err (e : pyerror).
Arguments Ok {A} a.
Arguments Err {A} e.

#[global] Instance result_ret : MRet result := fun A a => Ok a.
#[global] Instance result_bind : MBind result := fun A B f m =>
  match m with
  | Ok a => f a
  | Err e => Err e
  end.

Definition is_ok {A} (r : result A) : bool :=
  match r with Ok _ => true | Err _ => false end.

(** A value used as subscript of a dictionary.  The program subscripts its
    id mapping with text ids, with integers (the V8 reference targets and
    the default id [-1]) and, in the V10 parser, with one-element lists. *)
Inductive pyval : Type :=
  | PStr (s : string)
  | PInt (z : Z)
  | PList (l : list string).

(** [d[k]] for a dictionary all of whose keys are [str]: a list is
    unhashable ([TypeError]); an [int] is hashable but equal to no [str]
    key ([KeyError]). *)
Definition dict_getitem {V} (d : gmap string V) (k : pyval) : result V :=
  match k with
  | PStr s => match d !! s with Some v => Ok v | None => Err KeyError end
  | PInt _ => Err KeyError
  | PList _ => Err TypeError
  end.

(** [l[i] = x] on a Python list, for a non-negative [i]. *)
Definition list_setitem {A} (l : list A) (i : nat) (x : A) : result (list A) :=
  if decide (i < length l) then Ok (<[i := x]> l) else Err IndexError.

(** [l[0]] on a Python list. *)
Definition list_first {A} (l : list A) : result A :=
  match l with
  | x :: _ => Ok x
  | [] => Err IndexError
  end.

(** ** safe_append

<<
def safe_append(dict, id, elem):
    try:
        dict[id].append(elem)
    except KeyError:
        dict[id] = [elem]
>> *)
Definition safe_append `{Countable K} {A} (dict : gmap K (list A)) (id : K)
    (elem : A) : gmap K (list A) :=
  match dict !! id with
  | Some l => <[id := l ++ [elem]]> dict
  | None => <[id := [elem]]> dict
  end.

(** Loops whose body may raise: [for x in l: b = f(b, x)]. *)
Fixpoint foldM `{MBind M, MRet M} {A B} (f : B → A → M B) (b : B)
    (l : list A) : M B :=
  match l with
  | [] => mret b
  | x :: l' => b' ← f b x; foldM f b' l'
  end.

(** ** Strings, as the V8 parser uses them *)

(** The line break that ends a line of a text file. *)
Definition newline : string := String "010"%char EmptyString.

(** [s[i]]. *)
Definition str_index (s : string) (i : nat) : result ascii :=
  match String.get i s with
  | Some c => Ok c
  | None => Err IndexError
  end.

(** [s[start:-1]]: from [start] up to, not including, the last character. *)
Definition str_slice (start : nat) (s : string) : string :=
  String.substring start (String.length s - 1 - start) s.

(** [s.split(",")]. *)
Fixpoint str_split_comma (s : string) : list string :=
  match s with
  | EmptyString => [EmptyString]
  | String c s' =>
      if Ascii.eqb c "," then EmptyString :: str_split_comma s'
      else match str_split_comma s' with
           | h :: t => String c h :: t
           | [] => [String c EmptyString]
           end
  end.

(** ** Data model *)

(** Decoded JSON, as [json.loads] returns it. *)
#[local] Unset Elimination Schemes.
Inductive json : Type :=
  | JNull
  | JBool (b : bool)
  | JInt (z : Z)
  | JStr (s : string)
  | JArr (l : list json)
  | JObj (l : list (string * json)).
#[local] Set Elimination Schemes.

(** [obj[key]] on a decoded value. *)
Fixpoint assoc_get (l : list (string * json)) (key : string) : option json :=
  match l with
  | [] => None
  | (k, v) :: l' => if String.eqb k key then Some v else assoc_get l' key
  end.

Definition json_getitem (obj : json) (key : string) : result json :=
  match obj with
  | JObj l => match assoc_get l key with Some v => Ok v | None => Err KeyError end
  | _ => Err TypeError
  end.

(** A V10 id is text; author and reference sequences hold text. *)
Definition as_str (j : json) : result string :=
  match j with
  | JStr s => Ok s
  | _ => Err TypeError
  end.

Definition as_str_list (j : json) : result (list string) :=
  match j with
  | JArr l => mapM as_str l
  | _ => Err TypeError
  end.

(** The dictionary stored for one paper:
    [{"title": .., "authors": .., "venue": .., "year": .., "abstract": ..}]. *)
Record paper : Type := mk_paper {
  p_title : json;
  p_authors : json;
  p_venue : json;
  p_year : json;
  p_abstract : json
}.

(** Values held by the [parsed_data] dictionary. *)
Inductive pdvalue : Type :=
  | VPapers (l : list paper)
  | VIndex (m : gmap string (list nat))
  | VEdges (l : list (nat * nat))
  | VKeys (l : list Z)
  | VRows (l : list (list string))
  | VJson (j : json)
  | VInt (n : Z).

(** The variables both parsers accumulate. *)
Record pstate : Type := mk_pstate {
  papers : list paper;
  first_authors : gmap string (list nat);
  collaboration_authors : gmap string (list nat);
  references_flat : list (pyval * pyval);
  id2idx : gmap string nat;
  idx : nat
}.

Definition pstate_init : pstate :=
  {| papers := []; first_authors := ∅; collaboration_authors := ∅;
     references_flat := []; id2idx := ∅; idx := 0 |}.

(** The working fields of the V8 parser. *)
Record v8_fields : Type := mk_v8_fields {
  paper_id : pyval;
  title : string;
  authors : list string;
  venue : string;
  year : Z;
  abstract : string
}.

(** [paper_id, title, authors, venue, year, abstract = -1, '', [], '', 0, ''] *)
Definition v8_defaults : v8_fields :=
  {| paper_id := PInt (-1); title := ""; authors := []; venue := "";
     year := 0%Z; abstract := "" |}.

(** ** External libraries

    [json], [csv] and the built-in conversions between text and integers
    are not part of the module; their functions are parameters. *)
Class PyLib : Type := {
  json_loads : string → result json;
  json_dumps : json → string;
  py_int : string → result Z;
  py_str : Z → string;
  csv_reader : list string → list (list string);
  csv_writerow : list string → string
}.

(** ** The file system *)

Abbreviation path := (list string).

Inductive fmode : Type := ModeR | ModeW.

Inductive event : Type :=
  | EvRealpath
  | EvWalk (p : path)
  | EvOpen (p : path) (m : fmode)
  | EvWrite (p : path).

Record world : Type := mk_world {
  w_files : gmap path (list string);
  w_walk : path → list (path * list string * list string);
  w_module_dir : path;
  w_log : list event
}.

Definition io (A : Type) : Type := world → world * result A.

#[global] Instance io_ret : MRet io := fun A a w => (w, Ok a).
#[global] Instance io_bind : MBind io := fun A B f m w =>
  match m w with
  | (w', Ok a) => f a w'
  | (w', Err e) => (w', Err e)
  end.

Definition lift {A} (r : result A) : io A := fun w => (w, r).

Definition raise {A} (e : pyerror) : io A := fun w => (w, Err e).

Definition log (e : event) : io unit := fun w =>
  ({| w_files := w_files w; w_walk := w_walk w;
      w_module_dir := w_module_dir w; w_log := w_log w ++ [e] |}, Ok tt).

(** An open file: its path, its mode and the lines it held when opened. *)
Record handle : Type := mk_handle {
  h_path : path;
  h_mode : fmode;
  h_lines : list string
}.

Definition read_handle (p : path) : io handle := fun w =>
  match w_files w !! p with
  | Some ls => (w, Ok (mk_handle p ModeR ls))
  | None => (w, Err FileNotFoundError)
  end.

Definition create_handle (p : path) : io handle := fun w =>
  ({| w_files := <[p := []]> (w_files w); w_walk := w_walk w;
      w_module_dir := w_module_dir w; w_log := w_log w |},
   Ok (mk_handle p ModeW [])).

Definition append_chunk (p : path) (s : string) : io unit := fun w =>
  ({| w_files := <[p := default [] (w_files w !! p) ++ [s]]> (w_files w);
      w_walk := w_walk w; w_module_dir := w_module_dir w;
      w_log := w_log w |}, Ok tt).

Definition get_world : io world := fun w => (w, Ok w).

(** [open(p)] opens for reading and needs the file to exist; [open(p, "w")]
    creates or truncates it. *)
Definition py_open (p : path) (m : fmode) : io handle :=
  _ ← log (EvOpen p m);
  match m with
  | ModeR => read_handle p
  | ModeW => create_handle p
  end.

(** [f.write(s)]: a file opened for reading is not writable. *)
Definition file_write (h : handle) (s : string) : io unit :=
  match h_mode h with
  | ModeR => raise UnsupportedOperation
  | ModeW =>
      _ ← log (EvWrite (h_path h));
      append_chunk (h_path h) s
  end.

(** [os.walk(p)]: the triples [(root, dirs, files)] below [p]. *)
Definition os_walk (p : path) : io (list (path * list string * list string)) :=
  _ ← log (EvWalk p);
  w ← get_world;
  mret (w_walk w p).

(** [path.dirname(path.realpath(__file__))]. *)
Definition module_dir : io path :=
  _ ← log EvRealpath;
  w ← get_world;
  mret (w_module_dir w).

Abbreviation dataset := (gmap string pdvalue).

(** [parsed_data[key]] for a text key. *)
Definition dataset_get (parsed_data : dataset) (key : string) : result pdvalue :=
  dict_getitem parsed_data (PStr key).

(** ** The graph libraries

    [igraph] and [graph_tool] are external; a graph is modelled by what the
    module can observe of it: its vertex count, the [name] attribute that
    [add_vertices] sets when given a list, and its edges in insertion
    order (both libraries keep parallel edges and self-loops). *)
Inductive backend : Type := Igraph | GraphTool.

Record graph : Type := mk_graph {
  g_backend : backend;
  g_directed : bool;
  g_vcount : nat;
  g_names : list nat;
  g_edges : list (nat * nat)
}.

(** [igraph.Graph(directed=True)] and [gt.Graph()]. *)
Definition new_graph (b : backend) : graph :=
  {| g_backend := b; g_directed := true; g_vcount := 0; g_names := [];
     g_edges := [] |}.

(** [g.add_vertices(names)] with a list: one new vertex per element. *)
Definition add_vertices (g : graph) (names : list nat) : graph :=
  {| g_backend := g_backend g; g_directed := g_directed g;
     g_vcount := g_vcount g + length names; g_names := g_names g ++ names;
     g_edges := g_edges g |}.

Definition edge_in_range (n : nat) (e : nat * nat) : bool :=
  (e.1 <? n) && (e.2 <? n).

(** [g.add_edges(es)]: every endpoint must be an existing vertex. *)
Definition add_edges (g : graph) (es : list (nat * nat)) : result graph :=
  if forallb (edge_in_range (g_vcount g)) es
  then Ok {| g_backend := g_backend g; g_directed := g_directed g;
             g_vcount := g_vcount g; g_names := g_names g;
             g_edges := g_edges g ++ es |}
  else Err ValueError.

(** [range(v)] needs an integer. *)
Definition py_range (v : pdvalue) : result (list nat) :=
  match v with
  | VInt n => Ok (seq 0 (Z.to_nat n))
  | _ => Err TypeError
  end.

(** [len(v)]. *)
Definition py_len (v : pdvalue) : result nat :=
  match v with
  | VPapers l => Ok (length l)
  | VIndex m => Ok (size m)
  | VEdges l => Ok (length l)
  | VKeys l => Ok (length l)
  | VRows l => Ok (length l)
  | VJson (JArr l) => Ok (length l)
  | VJson (JObj l) => Ok (length l)
  | VJson (JStr s) => Ok (String.length s)
  | VJson _ => Err TypeError
  | VInt _ => Err TypeError
  end.

(** The edge list handed to the graph library. *)
Definition as_edges (v : pdvalue) : result (list (nat * nat)) :=
  match v with
  | VEdges l => Ok l
  | _ => Err TypeError
  end.

Definition as_count (v : pdvalue) : result nat :=
  match v with
  | VInt n => Ok (Z.to_nat n)
  | _ => Err TypeError
  end.

(** ** create_graph

<<
def create_graph(parsed_data, withIgraph=True):
    if withIgraph:
        g = igraph.Graph(directed=True)
        g.add_vertices([i for i in range(parsed_data["papers"])])
        g.add_edges(parsed_data["references_flat"])
    else:
        g = gt.Graph()
        g.add_vertex(n=parsed_data[len(parsed_data["papers"])])
        g.add_edge_list(parsed_data["references_flat"])
    return g, withIgraph
>> *)
Definition create_graph (parsed_data : dataset) (withIgraph : bool) :
    result (graph * bool) :=
  if withIgraph then
    let g := new_graph Igraph in
    ps ← dataset_get parsed_data "papers";
    r ← py_range ps;
    let g := add_vertices g r in
    es ← dataset_get parsed_data "references_flat" ≫= as_edges;
    g ← add_edges g es;
    Ok (g, withIgraph)
  else
    let g := new_graph GraphTool in
    ps ← dataset_get parsed_data "papers";
    len ← py_len ps;
    n ← dict_getitem parsed_data (PInt (Z.of_nat len)) ≫= as_count;
    let g := add_vertices g (seq 0 n) in
    es ← dataset_get parsed_data "references_flat" ≫= as_edges;
    g ← add_edges g es;
    Ok (g, withIgraph).

(** [graph.write_pickle()]: without a file name [igraph] pickles to a string
    and writes nothing; a [graph_tool] graph has no such method. *)
Definition write_pickle (g : graph) : io unit :=
  match g_backend g with
  | Igraph => mret tt
  | GraphTool => raise AttributeError
  end.

(** ** Reference resolution

    [[(id2idx[e[0]], id2idx[e[1]]) for e in references_flat]] *)
Definition resolve_edge (id2idx : gmap string nat) (e : pyval * pyval) :
    result (nat * nat) :=
  a ← dict_getitem id2idx e.1;
  b ← dict_getitem id2idx e.2;
  Ok (a, b).

Definition resolve_references (id2idx : gmap string nat)
    (references_flat : list (pyval * pyval)) : result (list (nat * nat)) :=
  mapM (resolve_edge id2idx) references_flat.

(** The dictionary both parsers return. *)
Definition make_parsed_data (st : pstate) (resolved : list (nat * nat)) : dataset :=
  <["papers" := VPapers (papers st)]>
  (<["first_authors" := VIndex (first_authors st)]>
  (<["collaboration_authors" := VIndex (collaboration_authors st)]>
  (<["references_flat" := VEdges resolved]> ∅))).

(** [for author in authors: safe_append(collaboration_authors, author, idx)] *)
Definition register_authors (d : gmap string (list nat)) (authors : list string)
    (idx : nat) : gmap string (list nat) :=
  fold_left (fun d author => safe_append d author idx) authors d.

(** [for reference in paper["references"]:
       references_flat.append(([paper["id"]], reference))] *)
Definition v10_references (references_flat : list (pyval * pyval))
    (paper_id : string) (references : list string) : list (pyval * pyval) :=
  fold_left (fun acc reference => acc ++ [(PList [paper_id], PStr reference)])
    references references_flat.

(** The body of [for line in dblp], after [json.loads]. *)
Definition v10_record (st : pstate) (paper : json) : result pstate :=
  pid ← json_getitem paper "id" ≫= as_str;
  let id2idx' := <[pid := idx st]> (id2idx st) in
  t ← json_getitem paper "title";
  a ← json_getitem paper "authors";
  v ← json_getitem paper "venue";
  y ← json_getitem paper "year";
  ab ← json_getitem paper "abstract";
  papers' ← list_setitem (papers st) (idx st) (mk_paper t a v y ab);
  names ← as_str_list a;
  first ← list_first names;
  let first_authors' := safe_append (first_authors st) first (idx st) in
  let collaboration' := register_authors (collaboration_authors st) names (idx st) in
  refs ← json_getitem paper "references" ≫= as_str_list;
  Ok {| papers := papers'; first_authors := first_authors';
        collaboration_authors := collaboration';
        references_flat := v10_references (references_flat st) pid refs;
        id2idx := id2idx'; idx := idx st |}.

(** [idx += 1], at the indentation of the source: once per file. *)
Definition next_idx (st : pstate) : pstate :=
  {| papers := papers st; first_authors := first_authors st;
     collaboration_authors := collaboration_authors st;
     references_flat := references_flat st; id2idx := id2idx st;
     idx := S (idx st) |}.

Section Program.
Context `{PyLib}.

Definition v10_line (st : pstate) (line : string) : result pstate :=
  paper ← json_loads line;
  v10_record st paper.

(** The body of [with open(..) as dblp]. *)
Definition v10_file (st : pstate) (lines : list string) : result pstate :=
  st' ← foldM v10_line st lines;
  Ok (next_idx st').

(** ** read_v10 *)
Definition read_v10 (data_path : path) : io dataset :=
  tree ← os_walk (data_path ++ ["dblp-ref"]);
  st ← foldM (fun st (entry : path * list string * list string) =>
          foldM (fun st file =>
            dblp ← py_open (data_path ++ ["dblp.v10"; file]) ModeR;
            lift (v10_file st (h_lines dblp))) st entry.2)
        pstate_init tree;
  resolved ← lift (resolve_references (id2idx st) (references_flat st));
  mret (make_parsed_data st resolved).

(** ** read_v8 *)

Definition set_title (wk : v8_fields) (s : string) : v8_fields :=
  {| paper_id := paper_id wk; title := s; authors := authors wk;
     venue := venue wk; year := year wk; abstract := abstract wk |}.
Definition set_authors (wk : v8_fields) (l : list string) : v8_fields :=
  {| paper_id := paper_id wk; title := title wk; authors := l;
     venue := venue wk; year := year wk; abstract := abstract wk |}.
Definition set_year (wk : v8_fields) (z : Z) : v8_fields :=
  {| paper_id := paper_id wk; title := title wk; authors := authors wk;
     venue := venue wk; year := z; abstract := abstract wk |}.
Definition set_venue (wk : v8_fields) (s : string) : v8_fields :=
  {| paper_id := paper_id wk; title := title wk; authors := authors wk;
     venue := s; year := year wk; abstract := abstract wk |}.
Definition set_paper_id (wk : v8_fields) (s : string) : v8_fields :=
  {| paper_id := PStr s; title := title wk; authors := authors wk;
     venue := venue wk; year := year wk; abstract := abstract wk |}.
Definition set_abstract (wk : v8_fields) (s : string) : v8_fields :=
  {| paper_id := paper_id wk; title := title wk; authors := authors wk;
     venue := venue wk; year := year wk; abstract := s |}.

Definition set_id2idx (st : pstate) (s : string) : pstate :=
  {| papers := papers st; first_authors := first_authors st;
     collaboration_authors := collaboration_authors st;
     references_flat := references_flat st;
     id2idx := <[s := idx st]> (id2idx st); idx := idx st |}.
Definition append_reference (st : pstate) (e : pyval * pyval) : pstate :=
  {| papers := papers st; first_authors := first_authors st;
     collaboration_authors := collaboration_authors st;
     references_flat := references_flat st ++ [e];
     id2idx := id2idx st; idx := idx st |}.

(** The branch [if "#" == line[0]]: the seven tests on [line[1]], in the
    order of the source.  [line[1]] is the same character in each. *)
Definition v8_tagged (st : pstate) (wk : v8_fields) (line : string) :
    result (pstate * v8_fields) :=
  c ← str_index line 1;
  let wk := if Ascii.eqb c "*" then set_title wk (str_slice 2 line) else wk in
  let wk := if Ascii.eqb c "@"
            then set_authors wk (str_split_comma (str_slice 2 line)) else wk in
  wk ← (if Ascii.eqb c "t"
        then y ← py_int (str_slice 2 line); Ok (set_year wk y) else Ok wk);
  let wk := if Ascii.eqb c "c" then set_venue wk (str_slice 2 line) else wk in
  let '(st, wk) :=
    if Ascii.eqb c "i"
    then (set_id2idx st (str_slice 6 line), set_paper_id wk (str_slice 6 line))
    else (st, wk) in
  st ← (if Ascii.eqb c "%"
        then t ← py_int (str_slice 2 line);
             Ok (append_reference st (paper_id wk, PInt t))
        else Ok st);
  let wk := if Ascii.eqb c "!" then set_abstract wk (str_slice 2 line) else wk in
  Ok (st, wk).

(** The [else] branch: the record is stored and the fields are reset. *)
Definition v8_finalize (st : pstate) (wk : v8_fields) :
    result (pstate * v8_fields) :=
  papers' ← list_setitem (papers st) (idx st)
              (mk_paper (JStr (title wk)) (JArr (JStr <$> authors wk))
                        (JStr (venue wk)) (JInt (year wk)) (JStr (abstract wk)));
  first ← list_first (authors wk);
  let first_authors' := safe_append (first_authors st) first (idx st) in
  let collaboration' :=
    register_authors (collaboration_authors st) (authors wk) (idx st) in
  Ok ({| papers := papers'; first_authors := first_authors';
         collaboration_authors := collaboration';
         references_flat := references_flat st; id2idx := id2idx st;
         idx := S (idx st) |}, v8_defaults).

(** The body of [for line in acm]. *)
Definition v8_line (s : pstate * v8_fields) (line : string) :
    result (pstate * v8_fields) :=
  c ← str_index line 0;
  if Ascii.eqb "#" c then v8_tagged s.1 s.2 line else v8_finalize s.1 s.2.

Definition read_v8 (data_path : path) : io dataset :=
  acm ← py_open (data_path ++ ["citation-acm-v8.txt"]) ModeR;
  s ← lift (foldM v8_line (pstate_init, v8_defaults) (h_lines acm));
  resolved ← lift (resolve_references (id2idx s.1) (references_flat s.1));
  mret (make_parsed_data s.1 resolved).

(** ** write_raw *)

Definition paper_json (p : paper) : json :=
  JObj [("title", p_title p); ("authors", p_authors p); ("venue", p_venue p);
        ("year", p_year p); ("abstract", p_abstract p)].

Definition index_json (m : gmap string (list nat)) : json :=
  JObj ((fun kv : string * list nat =>
           (kv.1, JArr ((fun i => JInt (Z.of_nat i)) <$> kv.2)))
        <$> map_to_list m).

(** The object [json.dump] serialises. *)
Definition to_json (v : pdvalue) : json :=
  match v with
  | VPapers l => JArr (paper_json <$> l)
  | VIndex m => index_json m
  | VEdges l =>
      JArr ((fun e : nat * nat =>
               JArr [JInt (Z.of_nat e.1); JInt (Z.of_nat e.2)]) <$> l)
  | VKeys l => JArr (JInt <$> l)
  | VRows l => JArr ((fun r => JArr (JStr <$> r)) <$> l)
  | VJson j => j
  | VInt n => JInt n
  end.

(** [json.dump(v, f)]. *)
Definition json_dump (v : pdvalue) (f : handle) : io unit :=
  file_write f (json_dumps (to_json v)).

(** [v.keys()]: a list has no such method. *)
Definition py_keys (v : pdvalue) : result (list string) :=
  match v with
  | VIndex m => Ok ((map_to_list m).*1)
  | VJson (JObj l) => Ok (l.*1)
  | _ => Err AttributeError
  end.

(** The rows [writer.writerow] receives from [parsed_data["references_flat"]]. *)
Definition csv_rows (v : pdvalue) : result (list (list string)) :=
  match v with
  | VEdges l =>
      Ok ((fun e : nat * nat =>
             [py_str (Z.of_nat e.1); py_str (Z.of_nat e.2)]) <$> l)
  | VRows l => Ok l
  | _ => Err TypeError
  end.

Definition for_each {A} (l : list A) (body : A → io unit) : io unit :=
  foldM (fun _ x => body x) tt l.

Definition write_raw (data_path : path) (parsed_data : dataset) : io unit :=
  f ← py_open (data_path ++ ["papers"; "w"]) ModeR;
  ps ← lift (dataset_get parsed_data "papers");
  _ ← json_dump ps f;
  f ← py_open (data_path ++ ["papers_id"; "w"]) ModeR;
  ps ← lift (dataset_get parsed_data "papers");
  keys ← lift (py_keys ps);
  _ ← for_each keys (fun key => file_write f (key +:+ newline));
  f ← py_open (data_path ++ ["first_authors"; "w"]) ModeR;
  fa ← lift (dataset_get parsed_data "first_authors");
  _ ← json_dump fa f;
  f ← py_open (data_path ++ ["collaboration_authors"; "w"]) ModeR;
  ca ← lift (dataset_get parsed_data "collaboration_authors");
  _ ← json_dump ca f;
  f ← py_open (data_path ++ ["references_flat"; "w"]) ModeR;
  rf ← lift (dataset_get parsed_data "references_flat");
  rows ← lift (csv_rows rf);
  for_each rows (fun ref => file_write f (csv_writerow ref)).

(** ** load_raw *)

(** [json.load(f)]. *)
Definition json_load (f : handle) : result json :=
  json_loads (String.concat "" (h_lines f)).

Definition load_raw (data_path : path) (net_struct : bool) : io dataset :=
  let parsed_data : dataset := ∅ in
  f ← py_open (data_path ++ ["papers_id"; "r"]) ModeR;
  keys ← lift (mapM py_int (h_lines f));
  let parsed_data := <["keys" := VKeys keys]> parsed_data in
  f ← py_open (data_path ++ ["references_flat"; "r"]) ModeR;
  let parsed_data :=
    <["references_flat" := VRows (csv_reader (h_lines f))]> parsed_data in
  if negb net_struct then
    f ← py_open (data_path ++ ["papers"; "r"]) ModeR;
    j ← lift (json_load f);
    let parsed_data := <["papers" := VJson j]> parsed_data in
    f ← py_open (data_path ++ ["first_authors"; "r"]) ModeR;
    j ← lift (json_load f);
    let parsed_data := <["first_authors" := VJson j]> parsed_data in
    f ← py_open (data_path ++ ["collaboration_authors"; "r"]) ModeR;
    j ← lift (json_load f);
    let parsed_data := <["collaboration_authors" := VJson j]> parsed_data in
    mret parsed_data
  else mret parsed_data.

(** ** preprocess

    [self] is the call [preprocess(dumpGraph, dumpRawData, False, True,
    dumpLight)] made when both formats are selected. *)
Definition preprocess_body (self : io unit) (dumpGraph dumpRawData v10 v8
    dumpLight : bool) (data_path : option path) : io unit :=
  data_path ← match data_path with
              | None => my_path ← module_dir; mret (my_path ++ [".data"])
              | Some p => mret p
              end;
  _ ← (if v10 && v8 then self else mret tt);
  parsed_data ← (if v10 then read_v10 data_path
                 else if v8 then read_v8 data_path
                 else raise ValueError);
  _ ← (if dumpRawData then write_raw data_path parsed_data else mret tt);
  gw ← lift (create_graph parsed_data true);
  if dumpGraph then write_pickle gw.1 else mret tt.

(** The inner call passes [v10=False], so it never calls itself again. *)
Definition preprocess (dumpGraph dumpRawData v10 v8 dumpLight : bool)
    (data_path : option path) : io unit :=
  preprocess_body
    (preprocess_body (raise ValueError) dumpGraph dumpRawData false true
       dumpLight None)
    dumpGraph dumpRawData v10 v8 dumpLight data_path.

End Program.

(** ** A concrete library and file system, for the examples *)

Module Demo.

(** Decimal digits, with the line break that ends a line dropped. *)
Definition digit (c : ascii) : option Z :=
  let n := nat_of_ascii c in
  if (48 <=? n) && (n <=? 57) then Some (Z.of_nat (n - 48)) else None.

Fixpoint digits (acc : Z) (s : string) : result Z :=
  match s with
  | EmptyString => Ok acc
  | String c s' =>
      match digit c with
      | Some d => digits (10 * acc + d)%Z s'
      | None => if String.eqb s newline then Ok acc else Err ValueError
      end
  end.

Definition int (s : string) : result Z :=
  match s with
  | EmptyString => Err ValueError
  | String c _ => match digit c with Some _ => digits 0%Z s | None => Err ValueError end
  end.

Definition chomp (s : string) : string :=
  String.substring 0 (String.length s - 1) s.

#[local] Instance lib : PyLib := {|
  json_loads := fun _ => Err JSONDecodeError;
  json_dumps := fun _ => EmptyString;
  py_int := int;
  py_str := pretty;
  csv_reader := fun ls => (fun l => str_split_comma (chomp l)) <$> ls;
  csv_writerow := fun r => String.concat "," r +:+ newline
|}.

(** A data directory that holds the two structural files of the raw
    dataset and nothing else. *)
Definition files : gmap path (list string) :=
  <[["data"; "papers_id"; "r"] := ["0" +:+ newline; "1" +:+ newline]]>
  (<[["data"; "references_flat"; "r"] := ["1,0" +:+ newline]]> ∅).

Definition fs : world :=
  {| w_files := files; w_walk := fun _ => []; w_module_dir := ["src"];
     w_log := [] |}.

(** Two V10 records; the second cites the first. *)
Definition rec_a : json :=
  JObj [("id", JStr "a"); ("title", JStr "A"); ("authors", JArr [JStr "Alice"; JStr "Bob"]);
        ("venue", JStr "ConfX"); ("year", JInt 2020); ("abstract", JStr "");
        ("references", JArr [])].

Definition rec_b : json :=
  JObj [("id", JStr "b"); ("title", JStr "B"); ("authors", JArr [JStr "Carol"]);
        ("venue", JStr "ConfX"); ("year", JInt 2021); ("abstract", JStr "");
        ("references", JArr [JStr "a"])].

(** A state whose [papers] list already has one slot, so that the store
    [papers[0] = ..] succeeds. *)
Definition one_slot : pstate :=
  {| papers := [mk_paper JNull JNull JNull JNull JNull]; first_authors := ∅;
     collaboration_authors := ∅; references_flat := []; id2idx := ∅;
     idx := 0 |}.

End Demo.

(** ** Further sample data *)

Module Sample.

(** A decoder for the two smallest documents. *)
Definition loads (s : string) : result json :=
  if String.eqb s "{}" then Ok (JObj [])
  else if String.eqb s "[]" then Ok (JArr [])
  else Err JSONDecodeError.

#[local] Instance lib : PyLib := {|
  json_loads := loads;
  json_dumps := fun _ => EmptyString;
  py_int := Demo.int;
  py_str := pretty;
  csv_reader := fun ls => (fun l => str_split_comma (Demo.chomp l)) <$> ls;
  csv_writerow := fun r => String.concat "," r +:+ newline
|}.

(** A V8 dump with one record that no line terminates. *)
Definition acm : list string :=
  ["#*A" +:+ newline; "#@Alice,Bob" +:+ newline; "#t2020" +:+ newline;
   "#cConfX" +:+ newline; "#index0001" +:+ newline; "#!Abstract" +:+ newline].

(** A data directory with the V8 dump, an empty V10 file that the walk of
    [dblp-ref] lists, and the five files [load_raw] reads. *)
Definition files : gmap path (list string) :=
  <[["data"; "citation-acm-v8.txt"] := acm]>
  (<[["data"; "dblp.v10"; "part0"] := []]>
  (<[["data"; "papers_id"; "r"] := ["0" +:+ newline]]>
  (<[["data"; "references_flat"; "r"] := ["0,0" +:+ newline]]>
  (<[["data"; "papers"; "r"] := ["{}"]]>
  (<[["data"; "first_authors"; "r"] := ["{}"]]>
  (<[["data"; "collaboration_authors"; "r"] := ["{}"]]> ∅)))))).

Definition walk (p : path) : list (path * list string * list string) :=
  if decide (p = ["data"; "dblp-ref"]) then [(p, [], ["part0"])] else [].

Definition fs : world :=
  {| w_files := files; w_walk := walk; w_module_dir := ["src"]; w_log := [] |}.

(** A walk that lists a file which [dblp.v10] does not hold. *)
Definition fs_missing : world :=
  {| w_files := ∅; w_walk := walk; w_module_dir := ["src"]; w_log := [] |}.

End Sample.

(** ** Predicates of the specification *)

(** Every name of the first-author index is a name of the collaboration
    index, with at least the same paper indices. *)
Definition authors_subset (fa ca : gmap string (list nat)) : Prop :=
  ∀ name l, fa !! name = Some l →
    ∃ l', ca !! name = Some l' ∧ l ⊆ l'.

(** The paper index [i] is recorded for [name] in both author indices. *)
Definition recorded_in_both (st : pstate) (name : string) (i : nat) : Prop :=
  ∃ l l', first_authors st !! name = Some l ∧
          collaboration_authors st !! name = Some l' ∧ i ∈ l ∧ i ∈ l'.

(** The events a computation added to the log. *)
Definition new_events (w w' : world) (evs : list event) : Prop :=
  w_log w' = w_log w ++ evs.

(** Opening, listing or writing: the events that touch a file or a
    directory.  Resolving the path of the module is not one of them. *)
Definition touches (e : event) : bool :=
  match e with
  | EvRealpath => false
  | EvWalk _ | EvOpen _ _ | EvWrite _ => true
  end.

(** A value that can be a dictionary key: anything but a list. *)
Definition hashable (k : pyval) : bool :=
  match k with
  | PList _ => false
  | PStr _ | PInt _ => true
  end.

(** A reference pair as the V8 parser builds it: two hashable ids. *)
Definition hashable_pair (e : pyval * pyval) : bool :=
  hashable e.1 && hashable e.2.

(** The paper count a dataset of the parsers stands for. *)
Definition paper_count (parsed_data : dataset) : option nat :=
  match parsed_data !! "papers" with
  | Some (VPapers l) => Some (length l)
  | _ => None
  end.

(** What the specification asks of the resolution of [raw]: it returns
    an edge list, namely the pairs both of whose ids are assigned, and the
    number of pairs it left out. *)
Definition skips_and_counts (id2idx : gmap string nat)
    (raw : list (pyval * pyval)) (edges : list (nat * nat)) (skipped : nat) : Prop :=
  resolve_references id2idx raw = Ok edges ∧
  resolve_references id2idx (filter (fun e => is_ok (resolve_edge id2idx e)) raw)
    = Ok edges ∧
  skipped = length raw - length edges.

(** The number of commas of a text. *)
Fixpoint count_commas (s : string) : nat :=
  match s with
  | EmptyString => 0
  | String c s' => (if Ascii.eqb c "," then 1 else 0) + count_commas s'
  end.

(** The events that change the file system. *)
Definition writes (e : event) : bool :=
  match e with
  | EvWrite _ | EvOpen _ ModeW => true
  | EvRealpath | EvWalk _ | EvOpen _ ModeR => false
  end.

(** A computation that leaves the file system as it found it and logs no
    event that changes it. *)
Definition read_only {A} (m : io A) : Prop :=
  ∀ w, w_files (m w).1 = w_files w ∧
       w_walk (m w).1 = w_walk w ∧
       w_module_dir (m w).1 = w_module_dir w ∧
       ∃ evs, new_events w (m w).1 evs ∧ Forall (fun e => writes e = false) evs.

(** A computation that raises on every file system. *)
Definition never_returns {A} (m : io A) : Prop :=
  ∀ w, is_ok (m w).2 = false.

(** A computation all of whose results satisfy [P]. *)
Definition returns_only {A} (m : io A) (P : A → Prop) : Prop :=
  ∀ w w' a, m w = (w', Ok a) → P a.

(** A reference pair of the V8 parser: a hashable source id and an
    integer target. *)
Definition v8_pair (e : pyval * pyval) : Prop :=
  hashable e.1 = true ∧ ∃ t, e.2 = PInt t.

(** The pair [e] consists of two text ids, mapped to the two indices of
    [ab]. *)
Definition resolved_as (id2idx : gmap string nat) (e : pyval * pyval)
    (ab : nat * nat) : Prop :=
  ∃ s1 s2, e = (PStr s1, PStr s2) ∧
           id2idx !! s1 = Some ab.1 ∧ id2idx !! s2 = Some ab.2.

(** The five tags of the V8 format that carry text or an id, and the two
    that carry an integer. *)
Definition v8_known_tag (c : ascii) : bool :=
  Ascii.eqb c "*" || Ascii.eqb c "@" || Ascii.eqb c "t" || Ascii.eqb c "c"
  || Ascii.eqb c "i" || Ascii.eqb c "%" || Ascii.eqb c "!".

(** A V8 line that the parser reads without raising and without
    accumulating a reference: it starts with [#], has a second character
    other than [%] and, on a year line, a text that [int] accepts. *)
Definition v8_accepted `{PyLib} (line : string) : Prop :=
  str_index line 0 = Ok "#"%char ∧
  ∃ c, str_index line 1 = Ok c ∧ c ≠ "%"%char ∧
       (c = "t"%char → is_ok (py_int (str_slice 2 line)) = true).

(** Every file that the walk lists exists under [dblp.v10] and has no
    line. *)
Definition v10_files_empty (data_path : path) (files : gmap path (list string))
    (tree : list (path * list string * list string)) : Prop :=
  Forall (fun entry : path * list string * list string =>
            Forall (fun file =>
                      files !! (data_path ++ ["dblp.v10"; file]) = Some [])
                   entry.2) tree.

(** * Properties *)

(** ** safe_append *)

Section SafeAppend.
Context `{Countable K} {A : Type}.
Implicit Types (d : gmap K (list A)) (k : K) (e : A).

Lemma safe_append_lookup d k e :
  safe_append d k e !! k = Some (default [] (d !! k) ++ [e]).
Proof.
  unfold safe_append. destruct (d !! k) as [l|]; simpl;
    by rewrite lookup_insert_eq.
Qed.

Lemma safe_append_lookup_ne d k k' e :
  k ≠ k' → safe_append d k e !! k' = d !! k'.
Proof.
  intros Hne. unfold safe_append.
  destruct (d !! k); by rewrite lookup_insert_ne.
Qed.

(** C10: after [safe_append(d, k, e)] the entry of [k] is the previous list
    with [e] appended at the end when [k] was present, the one-element list
    [[e]] when it was absent, and every other key keeps its value. *)
Theorem safe_append_spec d k e :
  (∀ l, d !! k = Some l → safe_append d k e !! k = Some (l ++ [e])) ∧
  (d !! k = None → safe_append d k e !! k = Some [e]) ∧
  (∀ k', k' ≠ k → safe_append d k e !! k' = d !! k').
Proof.
  split; [|split].
  - intros l Hl. by rewrite safe_append_lookup, Hl.
  - intros Hn. by rewrite safe_append_lookup, Hn.
  - intros k' Hne. by apply safe_append_lookup_ne.
Qed.

End SafeAppend.

(** An instance of C10 on a dictionary with one key. *)
Lemma safe_append_spec_witness :
  let d : gmap string (list nat) := {["Alice" := [0]]} in
  safe_append d "Alice" 1 !! "Alice" = Some [0; 1] ∧
  safe_append d "Bob" 1 !! "Bob" = Some [1] ∧
  safe_append d "Bob" 1 !! "Alice" = d !! "Alice".
Proof.
  intros d.
  destruct (safe_append_spec d "Alice" 1) as (Hp & _ & _).
  destruct (safe_append_spec d "Bob" 1) as (_ & Ha & Ho).
  split; [|split].
  - apply (Hp [0]). reflexivity.
  - apply Ha. reflexivity.
  - apply Ho. discriminate.
Defined.

(** ** Loops *)

Lemma foldM_result_inv {A B} (P : B → Prop) (f : B → A → result B) l :
  (∀ b x b', P b → f b x = Ok b' → P b') →
  ∀ b b', P b → foldM f b l = Ok b' → P b'.
Proof.
  intros Hstep. induction l as [|x l IH]; intros b b' Hb; simpl.
  - intros [= <-]. done.
  - destruct (f b x) as [b1|e] eqn:Hf; simpl; [|done].
    intros Hl. eapply IH; [|done]. eauto.
Qed.

Lemma foldM_io_inv {A B} (P : B → Prop) (f : B → A → io B) l :
  (∀ b x w w' b', P b → f b x w = (w', Ok b') → P b') →
  ∀ b w w' b', P b → foldM f b l w = (w', Ok b') → P b'.
Proof.
  intros Hstep. induction l as [|x l IH]; intros b w w' b' Hb; simpl.
  - intros [= _ <-]. done.
  - unfold mbind, io_bind. destruct (f b x w) as [w1 [b1|e]] eqn:Hf; [|done].
    intros Hl. eapply IH; [|done]. eauto.
Qed.

(** ** The author indices *)

Lemma register_authors_mono ca names i name l :
  ca !! name = Some l →
  ∃ l', register_authors ca names i !! name = Some l' ∧ l ⊆ l'.
Proof.
  unfold register_authors. revert ca l.
  induction names as [|a names IH]; intros ca l Hl; simpl.
  - by exists l.
  - destruct (decide (a = name)) as [->|Hne].
    + destruct (IH (safe_append ca name i) (l ++ [i])) as (l' & Hl' & Hsub).
      { by rewrite safe_append_lookup, Hl. }
      exists l'. split; [done|]. set_solver.
    + apply IH. by rewrite safe_append_lookup_ne.
Qed.

Lemma register_authors_elem ca names i name :
  name ∈ names →
  ∃ l', register_authors ca names i !! name = Some l' ∧ i ∈ l'.
Proof.
  unfold register_authors. revert ca.
  induction names as [|a names IH]; intros ca Hin; [by apply elem_of_nil in Hin|].
  simpl. destruct (decide (a = name)) as [->|Hne].
  - destruct (register_authors_mono (safe_append ca name i) names i name
                (default [] (ca !! name) ++ [i])) as (l' & Hl' & Hsub).
    { apply safe_append_lookup. }
    exists l'. split; [done|]. set_solver.
  - apply IH. set_solver.
Qed.

(** One registration step keeps the first-author index inside the
    collaboration index, from any state. *)
Lemma register_step_subset fa ca names first i :
  authors_subset fa ca → first ∈ names →
  authors_subset (safe_append fa first i) (register_authors ca names i).
Proof.
  intros Hinv Hfirst name l Hl.
  destruct (decide (first = name)) as [->|Hne].
  - rewrite safe_append_lookup in Hl. injection Hl as <-.
    destruct (register_authors_elem ca names i name Hfirst) as (l1 & Hl1 & Hi).
    destruct (fa !! name) as [l0|] eqn:Hfa; simpl.
    + destruct (Hinv name l0 Hfa) as (l0' & Hca & Hsub).
      destruct (register_authors_mono ca names i name l0' Hca) as (l2 & Hl2 & Hsub2).
      exists l2. split; [done|].
      assert (l1 = l2) as -> by congruence. set_solver.
    + exists l1. split; [done|]. set_solver.
  - rewrite safe_append_lookup_ne in Hl by done.
    destruct (Hinv name l Hl) as (l0' & Hca & Hsub).
    destruct (register_authors_mono ca names i name l0' Hca) as (l2 & Hl2 & Hsub2).
    exists l2. split; [done|]. set_solver.
Qed.

Lemma list_first_elem {A} (l : list A) x : list_first l = Ok x → x ∈ l.
Proof. destruct l; intros [= ->]. set_solver. Qed.

(** One registration step records the paper index for the first author in
    both indices. *)
Lemma register_step_recorded fa ca names first i :
  first ∈ names →
  ∃ l l', safe_append fa first i !! first = Some l ∧
          register_authors ca names i !! first = Some l' ∧ i ∈ l ∧ i ∈ l'.
Proof.
  intros Hfirst.
  destruct (register_authors_elem ca names i first Hfirst) as (l' & Hl' & Hi).
  exists (default [] (fa !! first) ++ [i]), l'.
  split; [apply safe_append_lookup|]. split; [done|]. split; [set_solver|done].
Qed.

Lemma bind_Ok_inv {A B} (m : result A) (f : A → result B) b :
  m ≫= f = Ok b → ∃ a, m = Ok a ∧ f a = Ok b.
Proof. destruct m as [a|e]; [by exists a | done]. Qed.

Lemma bind_Ok {A B} (m : result A) (f : A → result B) a :
  m = Ok a → m ≫= f = f a.
Proof. by intros ->. Qed.

Lemma io_bind_Ok_inv {A B} (m : io A) (f : A → io B) w w' b :
  (m ≫= f) w = (w', Ok b) → ∃ w1 a, m w = (w1, Ok a) ∧ f a w1 = (w', Ok b).
Proof.
  unfold mbind, io_bind. destruct (m w) as [w1 [a|e]]; [|done].
  intros Hf. by exists w1, a.
Qed.

Lemma io_bind_eq {A B} (m : io A) (f : A → io B) w :
  (m ≫= f) w = match m w with
               | (w', Ok a) => f a w'
               | (w', Err e) => (w', Err e)
               end.
Proof. reflexivity. Qed.

Lemma py_open_read p w :
  py_open p ModeR w =
  let w1 := {| w_files := w_files w; w_walk := w_walk w;
               w_module_dir := w_module_dir w;
               w_log := w_log w ++ [EvOpen p ModeR] |} in
  match w_files w !! p with
  | Some ls => (w1, Ok (mk_handle p ModeR ls))
  | None => (w1, Err FileNotFoundError)
  end.
Proof. reflexivity. Qed.

Lemma lift_Ok_inv {A} (r : result A) w w' a :
  lift r w = (w', Ok a) → w' = w ∧ r = Ok a.
Proof. unfold lift. by intros [= -> ->]. Qed.

(** Peel the successful binds off a hypothesis [m ≫= f = Ok b]. *)
Ltac inv_binds H :=
  repeat match type of H with
         | _ ≫= _ = Ok _ =>
             let a := fresh "a" in
             let E := fresh "E" in
             apply bind_Ok_inv in H as (a & E & H)
         end.

Ltac inv_all_binds :=
  repeat match goal with
         | H : _ ≫= _ = Ok _ |- _ =>
             let a := fresh "a" in
             let E := fresh "E" in
             apply bind_Ok_inv in H as (a & E & H)
         end.

Lemma v10_record_subset st paper st' :
  authors_subset (first_authors st) (collaboration_authors st) →
  v10_record st paper = Ok st' →
  authors_subset (first_authors st') (collaboration_authors st').
Proof.
  intros Hinv Hrec. unfold v10_record in Hrec. inv_binds Hrec.
  injection Hrec as <-. simpl.
  apply register_step_subset; [done|]. by apply list_first_elem.
Qed.

Lemma next_idx_subset st :
  authors_subset (first_authors st) (collaboration_authors st) →
  authors_subset (first_authors (next_idx st)) (collaboration_authors (next_idx st)).
Proof. done. Qed.

Section ParserInvariant.
Context `{PyLib}.

Let inv (st : pstate) : Prop :=
  authors_subset (first_authors st) (collaboration_authors st).

Lemma v10_file_subset st lines st' :
  inv st → v10_file st lines = Ok st' → inv st'.
Proof.
  intros Hinv Hfile. unfold v10_file in Hfile. inv_binds Hfile.
  injection Hfile as <-. apply next_idx_subset.
  apply (foldM_result_inv inv v10_line lines) with (b := st); [|done..].
  intros b x b' Hb Hline. unfold v10_line in Hline. inv_binds Hline.
  by eapply v10_record_subset.
Qed.

Lemma v8_tagged_authors st wk line st' wk' :
  v8_tagged st wk line = Ok (st', wk') →
  papers st' = papers st ∧ idx st' = idx st ∧
  first_authors st' = first_authors st ∧
  collaboration_authors st' = collaboration_authors st.
Proof.
  intros Htag. unfold v8_tagged in Htag.
  apply bind_Ok_inv in Htag as (c & _ & Htag).
  apply bind_Ok_inv in Htag as (wk1 & _ & Htag).
  destruct (Ascii.eqb c "i");
    apply bind_Ok_inv in Htag as (st1 & Hst1 & Htag);
    injection Htag as <- <-;
    (destruct (Ascii.eqb c "%"); [inv_binds Hst1|]);
    injection Hst1 as <-; done.
Qed.

Lemma v8_finalize_subset st wk st' wk' :
  inv st → v8_finalize st wk = Ok (st', wk') → inv st'.
Proof.
  intros Hinv Hfin. unfold v8_finalize in Hfin. inv_binds Hfin.
  injection Hfin as <- <-. unfold inv. simpl.
  apply register_step_subset; [done|]. by apply list_first_elem.
Qed.

Lemma v8_line_subset s line s' :
  inv s.1 → v8_line s line = Ok s' → inv s'.1.
Proof.
  intros Hinv. unfold v8_line, mbind, result_bind.
  destruct (str_index line 0) as [c|]; [|done].
  destruct s' as [st' wk']. destruct (Ascii.eqb "#" c).
  - intros (_ & _ & Hfa & Hca)%v8_tagged_authors.
    unfold inv. simpl. by rewrite Hfa, Hca.
  - by apply v8_finalize_subset.
Qed.

Lemma make_parsed_data_lookup st resolved :
  make_parsed_data st resolved !! "first_authors" = Some (VIndex (first_authors st)) ∧
  make_parsed_data st resolved !! "collaboration_authors"
    = Some (VIndex (collaboration_authors st)).
Proof. unfold make_parsed_data. by simplify_map_eq. Qed.

Lemma parsers_return_subset data_path w w' parsed_data :
  read_v10 data_path w = (w', Ok parsed_data) ∨
  read_v8 data_path w = (w', Ok parsed_data) →
  ∃ fa ca,
    parsed_data !! "first_authors" = Some (VIndex fa) ∧
    parsed_data !! "collaboration_authors" = Some (VIndex ca) ∧
    authors_subset fa ca.
Proof.
  intros [Hread|Hread].
  - unfold read_v10 in Hread.
    apply io_bind_Ok_inv in Hread as (w1 & tree & _ & Hread).
    apply io_bind_Ok_inv in Hread as (w2 & st & Hloop & Hread).
    apply io_bind_Ok_inv in Hread as (w3 & resolved & _ & Hread).
    injection Hread as _ <-.
    exists (first_authors st), (collaboration_authors st).
    destruct (make_parsed_data_lookup st resolved) as [-> ->].
    split; [done|]. split; [done|].
    revert Hloop. apply (foldM_io_inv inv); [|by intros ???].
    intros b entry wa wb b' Hb. apply (foldM_io_inv inv); [|done].
    clear. intros b file wa wb b' Hb Hbody.
    apply io_bind_Ok_inv in Hbody as (wc & dblp & _ & Hbody).
    apply lift_Ok_inv in Hbody as [_ Hfile]. by eapply v10_file_subset.
  - unfold read_v8 in Hread.
    apply io_bind_Ok_inv in Hread as (w1 & acm & _ & Hread).
    apply io_bind_Ok_inv in Hread as (w2 & s & Hloop & Hread).
    apply io_bind_Ok_inv in Hread as (w3 & resolved & _ & Hread).
    injection Hread as _ <-.
    exists (first_authors s.1), (collaboration_authors s.1).
    destruct (make_parsed_data_lookup s.1 resolved) as [-> ->].
    split; [done|]. split; [done|].
    apply lift_Ok_inv in Hloop as [_ Hloop]. revert Hloop.
    apply (foldM_result_inv (fun s => inv s.1) v8_line); [|by intros ???].
    intros b x b'. apply v8_line_subset.
Qed.

Lemma v10_record_recorded st paper st' :
  v10_record st paper = Ok st' → ∃ first, recorded_in_both st' first (idx st).
Proof.
  intros Hrec. unfold v10_record in Hrec. inv_binds Hrec.
  injection Hrec as <-. unfold recorded_in_both. simpl.
  match goal with
  | Hfirst : list_first _ = Ok ?first |- _ =>
      exists first; apply register_step_recorded; by apply list_first_elem
  end.
Qed.

Lemma v8_finalize_recorded st wk st' wk' :
  v8_finalize st wk = Ok (st', wk') →
  ∃ first, recorded_in_both st' first (idx st).
Proof.
  intros Hfin. unfold v8_finalize in Hfin. inv_binds Hfin.
  injection Hfin as <- <-. unfold recorded_in_both. simpl.
  match goal with
  | Hfirst : list_first _ = Ok ?first |- _ =>
      exists first; apply register_step_recorded; by apply list_first_elem
  end.
Qed.


End ParserInvariant.


(** ** The store into [papers] *)

Lemma list_setitem_Ok {A} (l : list A) i x l' :
  list_setitem l i x = Ok l' → i < length l.
Proof. unfold list_setitem. by case_decide. Qed.

Lemma list_setitem_out {A} (l : list A) i x :
  length l ≤ i → list_setitem l i x = Err IndexError.
Proof. unfold list_setitem. intros Hle. case_decide; [lia | done]. Qed.

(** [papers] starts as the empty list and only [papers[idx] = ..] touches
    it, which keeps its length: no record can ever be stored. *)
Lemma v10_record_store_fails st paper :
  length (papers st) ≤ idx st → is_ok (v10_record st paper) = false.
Proof.
  intros Hle. destruct (v10_record st paper) as [st'|] eqn:Hrec; [|done].
  unfold v10_record in Hrec. inv_binds Hrec.
  match goal with
  | Hset : list_setitem _ _ _ = Ok _ |- _ => apply list_setitem_Ok in Hset; lia
  end.
Qed.

(** A record that has the six fields of a paper raises [IndexError] there. *)
Lemma v10_record_raises st paper pid t a v y ab :
  json_getitem paper "id" = Ok (JStr pid) →
  json_getitem paper "title" = Ok t →
  json_getitem paper "authors" = Ok a →
  json_getitem paper "venue" = Ok v →
  json_getitem paper "year" = Ok y →
  json_getitem paper "abstract" = Ok ab →
  length (papers st) ≤ idx st →
  v10_record st paper = Err IndexError.
Proof.
  intros Hid Ht Ha Hv Hy Hab Hle. unfold v10_record.
  rewrite Hid. simpl. rewrite Ht. simpl. rewrite Ha. simpl.
  rewrite Hv. simpl. rewrite Hy. simpl. rewrite Hab. simpl.
  by rewrite list_setitem_out.
Qed.

(** A record that is stored is mapped to the current index, and the index
    stays where it was. *)
Lemma v10_record_idx st paper st' :
  v10_record st paper = Ok st' →
  idx st' = idx st ∧ length (papers st') = length (papers st) ∧
  ∃ pid, json_getitem paper "id" = Ok (JStr pid) ∧
         id2idx st' = <[pid := idx st]> (id2idx st).
Proof.
  intros Hrec. unfold v10_record in Hrec. inv_all_binds.
  injection Hrec as <-. simpl.
  match goal with
  | Hset : list_setitem _ _ _ = Ok _ |- _ =>
      unfold list_setitem in Hset; case_decide; [|done];
      injection Hset as <-
  end.
  split; [done|]. split; [by rewrite length_insert|].
  match goal with
  | Hs : as_str ?j = Ok ?s, Hj : json_getitem paper "id" = Ok ?j |- _ =>
      exists s; destruct j; try done; injection Hs as ->; done
  end.
Qed.

Lemma v8_finalize_raises st wk :
  length (papers st) ≤ idx st → v8_finalize st wk = Err IndexError.
Proof. intros Hle. unfold v8_finalize. by rewrite list_setitem_out. Qed.

Section Decoded.
Context `{PyLib}.

(** Reading a file whose lines all decode is running the record step on
    the decoded values, then advancing the index once. *)
Lemma v10_file_decoded st lines recs :
  mapM json_loads lines = Ok recs →
  v10_file st lines = st' ← foldM v10_record st recs; Ok (next_idx st').
Proof.
  unfold v10_file. intros Hdec. f_equal. revert st recs Hdec.
  induction lines as [|line lines IH]; intros st recs Hdec.
  - by injection Hdec as <-.
  - simpl in Hdec. apply bind_Ok_inv in Hdec as (paper & Hp & Hdec).
    apply bind_Ok_inv in Hdec as (recs' & Hr & Hdec). injection Hdec as <-.
    simpl.
    replace (v10_line st line) with (v10_record st paper)
      by (unfold v10_line; by rewrite Hp).
    destruct (v10_record st paper) as [st1|]; simpl; [|done]. by apply IH.
Qed.

(** From the initial state every file with a line raises. *)
Lemma v10_file_nonempty_fails st line lines :
  length (papers st) ≤ idx st → is_ok (v10_file st (line :: lines)) = false.
Proof.
  intros Hle. unfold v10_file. simpl.
  assert (is_ok (v10_line st line) = false) as Hfail.
  { unfold v10_line. destruct (json_loads line) as [paper|]; simpl; [|done].
    by apply v10_record_store_fails. }
  by destruct (v10_line st line).
Qed.

End Decoded.

(** ** read_v10: the index of a record *)

(** C1, at a file of two records ([Demo.rec_a], [Demo.rec_b]).  From the
    initial state the first record already raises [IndexError] at
    [papers[idx] = ..], so no index assignment survives.  Where the store
    has room for one paper the loop goes through, and both records are
    mapped to index 0: the index advances once per file, not once per
    line, so the assigned indices are neither unique nor [0, 1]. *)
Theorem read_v10_index_defect :
  foldM v10_record pstate_init [Demo.rec_a; Demo.rec_b] = Err IndexError ∧
  ∃ st', foldM v10_record Demo.one_slot [Demo.rec_a; Demo.rec_b] = Ok st' ∧
         id2idx st' !! "a" = Some 0 ∧ id2idx st' !! "b" = Some 0 ∧
         idx (next_idx st') = 1 ∧ length (papers st') = 1.
Proof.
  split; [reflexivity|].
  eexists. split; [reflexivity|]. by repeat split.
Qed.

Section ReadV10.
Context `{PyLib}.

Lemma os_walk_eq p w :
  os_walk p w =
  ({| w_files := w_files w; w_walk := w_walk w;
      w_module_dir := w_module_dir w; w_log := w_log w ++ [EvWalk p] |},
   Ok (w_walk w p)).
Proof. reflexivity. Qed.

(** [read_v10] raises as soon as the first file it opens has a line, be
    the line a valid record or not. *)
Lemma read_v10_first_line_fails data_path w root dirs file files tree line lines :
  w_walk w (data_path ++ ["dblp-ref"]) = (root, dirs, file :: files) :: tree →
  w_files w !! (data_path ++ ["dblp.v10"; file]) = Some (line :: lines) →
  is_ok (read_v10 data_path w).2 = false.
Proof.
  intros Hwalk Hfile. unfold read_v10.
  rewrite io_bind_eq, os_walk_eq, Hwalk. rewrite io_bind_eq.
  cbn [foldM snd]. rewrite io_bind_eq. cbn [foldM]. rewrite io_bind_eq.
  rewrite io_bind_eq, py_open_read. cbv zeta. cbn [w_files]. rewrite Hfile.
  unfold lift at 1.
  pose proof (v10_file_nonempty_fails pstate_init line lines (Nat.le_refl 0))
    as Hfail.
  cbn [h_lines]. by destruct (v10_file pstate_init (line :: lines)).
Qed.

End ReadV10.

(** ** read_v10: the reference pairs *)

Lemma v10_references_spec acc pid refs :
  v10_references acc pid refs
  = acc ++ ((fun r => (PList [pid], PStr r)) <$> refs).
Proof.
  unfold v10_references. revert acc.
  induction refs as [|r refs IH]; intros acc; simpl.
  - by rewrite app_nil_r.
  - rewrite IH. by rewrite <- app_assoc.
Qed.

(** C7, for every record id [pid] and every list of references: the pair
    appended for a reference [r] is [([pid], r)].  Its first component is
    the one-element list that holds the id, not the id; a list is no key
    of the id mapping, and resolving the pair raises [TypeError] whatever
    the mapping holds.  The record [Demo.rec_b], of id ["b"] and citing
    ["a"], leaves the one pair [(["b"], "a")]. *)
Theorem v10_reference_pair_defect acc pid refs :
  v10_references acc pid refs
    = acc ++ ((fun r => (PList [pid], PStr r)) <$> refs) ∧
  (∀ r, (PList [pid], PStr r) ≠ (PStr pid, PStr r) ∧
        ∀ id2idx, resolve_edge id2idx (PList [pid], PStr r) = Err TypeError) ∧
  ∃ st', v10_record Demo.one_slot Demo.rec_b = Ok st' ∧
         references_flat st' = [(PList ["b"], PStr "a")] ∧
         resolve_references (<["a" := 0]> (id2idx st')) (references_flat st')
           = Err TypeError.
Proof.
  split; [apply v10_references_spec|]. split.
  - intros r. split; [discriminate|]. reflexivity.
  - eexists. split; [reflexivity|]. by split.
Qed.

(** ** read_v8: the end of a record *)

Section V8.
Context `{PyLib}.

(** C5, at the file of the three lines [#*A], [#@Alice,Bob] and an empty
    line.  The empty line does not start with [#] and ends the record; the
    store [papers[idx] = ..] raises [IndexError] on the empty list, so
    nothing is appended, no author is registered, the index does not
    advance and the fields are not reset. *)
Theorem read_v8_finalize_defect :
  foldM v8_line (pstate_init, v8_defaults)
    ["#*A" +:+ newline; "#@Alice,Bob" +:+ newline; newline]
  = Err IndexError ∧
  foldM v8_line (pstate_init, v8_defaults)
    ["#*A" +:+ newline; "#@Alice,Bob" +:+ newline]
  = Ok (pstate_init,
        {| paper_id := PInt (-1); title := "A"; authors := ["Alice"; "Bob"];
           venue := ""; year := 0%Z; abstract := "" |}).
Proof. split; reflexivity. Qed.

(** What does hold of C5: a line that starts with [#] stores nothing,
    registers no author and leaves the index alone. *)
Lemma v8_tagged_never_finalizes s line s' c :
  str_index line 0 = Ok c → Ascii.eqb "#" c = true →
  v8_line s line = Ok s' →
  papers s'.1 = papers s.1 ∧ idx s'.1 = idx s.1 ∧
  first_authors s'.1 = first_authors s.1 ∧
  collaboration_authors s'.1 = collaboration_authors s.1.
Proof.
  intros Hc Htag. unfold v8_line. rewrite (bind_Ok _ _ _ Hc), Htag.
  destruct s' as [st' wk']. apply v8_tagged_authors.
Qed.

(** A line that does not start with [#] reaches the store, which raises. *)
Lemma v8_untagged_raises s line c :
  str_index line 0 = Ok c → Ascii.eqb "#" c = false →
  length (papers s.1) ≤ idx s.1 →
  v8_line s line = Err IndexError.
Proof.
  intros Hc Htag Hle. unfold v8_line. rewrite (bind_Ok _ _ _ Hc), Htag.
  by apply v8_finalize_raises.
Qed.

End V8.

(** ** create_graph *)

(** C8, on every dataset the parsers build: [parsed_data["papers"]] is the
    list of papers, [range] refuses it with [TypeError] and no graph is
    produced, whatever the number of papers and the edges. *)
Theorem create_graph_defect st resolved :
  paper_count (make_parsed_data st resolved) = Some (length (papers st)) ∧
  create_graph (make_parsed_data st resolved) true = Err TypeError.
Proof. split; reflexivity. Qed.

(** The other backend looks the number of papers up as a key of the
    dataset, which has none but text keys. *)
Lemma create_graph_gt_raises st resolved :
  create_graph (make_parsed_data st resolved) false = Err KeyError.
Proof. reflexivity. Qed.

Lemma forallb_edge_in_range n es :
  Forall (fun e : nat * nat => e.1 < n ∧ e.2 < n) es →
  forallb (edge_in_range n) es = true.
Proof.
  induction 1 as [|e es [H1 H2] _ IH]; [done|]. simpl. rewrite IH.
  unfold edge_in_range.
  apply Nat.ltb_lt in H1, H2. by rewrite H1, H2.
Qed.

(** X26: Handed the number of papers itself, [create_graph] builds the graph of
    the specification: [n] vertices named [0 .. n-1] and the edges as
    given, parallel edges and self-loops included. *)
Lemma create_graph_count (n : nat) es :
  Forall (fun e : nat * nat => e.1 < n ∧ e.2 < n) es →
  create_graph (<["papers" := VInt (Z.of_nat n)]>
                  (<["references_flat" := VEdges es]> ∅)) true
  = Ok ({| g_backend := Igraph; g_directed := true; g_vcount := n;
           g_names := seq 0 n; g_edges := es |}, true).
Proof.
  intros Hes. unfold create_graph, dataset_get, dict_getitem.
  rewrite lookup_insert_eq. simpl. rewrite Nat2Z.id.
  rewrite lookup_insert_ne by done. rewrite lookup_insert_eq. simpl.
  unfold add_edges. simpl. rewrite length_seq.
  by rewrite forallb_edge_in_range.
Qed.

(** ** Reference resolution *)

Lemma resolve_references_cons id2idx e raw :
  resolve_references id2idx (e :: raw)
  = ab ← resolve_edge id2idx e;
    es ← resolve_references id2idx raw;
    Ok (ab :: es).
Proof. reflexivity. Qed.

Lemma resolve_edge_hashable id2idx e err :
  hashable_pair e = true → resolve_edge id2idx e = Err err → err = KeyError.
Proof.
  destruct e as [[s1|z1|l1] [s2|z2|l2]]; unfold hashable_pair, resolve_edge;
    simpl; try done.
  - destruct (id2idx !! s1); simpl; [|by intros _ [= <-]].
    destruct (id2idx !! s2); simpl; [done|by intros _ [= <-]].
  - destruct (id2idx !! s1); simpl; by intros _ [= <-].
  - by intros _ [= <-].
  - by intros _ [= <-].
Qed.

Lemma resolve_edge_dangling id2idx e :
  dict_getitem id2idx e.2 = Err KeyError →
  ∃ err, resolve_edge id2idx e = Err err.
Proof.
  intros Hd. unfold resolve_edge.
  destruct (dict_getitem id2idx e.1) as [a|err]; simpl; [|by exists err].
  rewrite Hd. by exists KeyError.
Qed.

Lemma resolve_references_hashable id2idx raw err :
  forallb hashable_pair raw = true →
  resolve_references id2idx raw = Err err → err = KeyError.
Proof.
  induction raw as [|e raw IH]; [done|].
  rewrite resolve_references_cons. cbn [forallb].
  intros [He Hraw]%andb_prop.
  destruct (resolve_edge id2idx e) as [ab|err'] eqn:Hedge; simpl.
  - destruct (resolve_references id2idx raw) as [es|err'']; simpl; [done|].
    intros [= <-]. by apply IH.
  - intros [= <-]. by eapply resolve_edge_hashable.
Qed.

(** C2, as amended: a reference whose target id was never assigned an
    index is not skipped and nothing is counted.  The lookup of the id
    raises, so resolution raises and produces no edge list; when every id
    of the accumulated pairs is hashable, as in the V8 parser, the error
    is [KeyError]. *)
Theorem resolve_dangling_raises id2idx raw e :
  e ∈ raw → dict_getitem id2idx e.2 = Err KeyError →
  (∃ err, resolve_references id2idx raw = Err err) ∧
  (forallb hashable_pair raw = true →
   resolve_references id2idx raw = Err KeyError).
Proof.
  intros Hin Hd.
  assert (∃ err, resolve_references id2idx raw = Err err) as [err Herr].
  { induction raw as [|e' raw IH]; [by apply elem_of_nil in Hin|].
    rewrite resolve_references_cons.
    destruct (resolve_edge id2idx e') as [ab|err] eqn:Hedge; simpl;
      [|by exists err].
    apply elem_of_cons in Hin as [->|Hin].
    - destruct (resolve_edge_dangling id2idx e' Hd) as [err Herr]. congruence.
    - destruct (IH Hin) as [err ->]. by exists err. }
  split; [by exists err|].
  intros Hh. rewrite Herr. f_equal. by eapply resolve_references_hashable.
Qed.

(** A V8 record ["b"] (index 1) that cites the integer id 7, which no
    record carries. *)
Lemma resolve_dangling_raises_witness :
  let id2idx : gmap string nat := <["a" := 0]> (<["b" := 1]> ∅) in
  resolve_references id2idx [(PStr "b", PInt 7)] = Err KeyError.
Proof.
  intros id2idx.
  apply (resolve_dangling_raises id2idx [(PStr "b", PInt 7)] (PStr "b", PInt 7)).
  - apply list_elem_of_here.
  - reflexivity.
  - reflexivity.
Defined.

(** C2 as stated fails: with one dangling reference, of the V8 shape or
    of the V10 shape, resolution raises; there is no edge list from which
    the pair was left out and no count of one. *)
Lemma resolve_skips_counterexample :
  let id2idx : gmap string nat := <["a" := 0]> (<["b" := 1]> ∅) in
  resolve_references id2idx [(PStr "b", PInt 7)] = Err KeyError ∧
  resolve_references id2idx [(PList ["b"], PStr "zz")] = Err TypeError ∧
  ¬ skips_and_counts id2idx [(PStr "b", PInt 7)] [] 1 ∧
  ¬ (∃ edges skipped, skips_and_counts id2idx [(PList ["b"], PStr "zz")] edges skipped).
Proof.
  intros id2idx. split; [reflexivity|]. split; [reflexivity|]. split.
  - intros (Hres & _). discriminate Hres.
  - intros (edges & skipped & Hres & _). discriminate Hres.
Qed.

(** ** The raw dataset *)

Section Raw.
Context `{PyLib}.

(** A file that was opened for reading takes no [json.dump]. *)
Lemma json_dump_read_only v p ls w :
  json_dump v (mk_handle p ModeR ls) w = (w, Err UnsupportedOperation).
Proof. reflexivity. Qed.

(** C3, on every dataset and every file system: [write_raw] opens
    [<data_path>/papers/w] for reading (the mode ["w"] is passed to
    [path.join], not to [open]) and raises, at the latest when [json.dump]
    writes to the read-only file.  No file is created or changed, so
    nothing of the dataset can be read back. *)
Theorem write_raw_defect data_path parsed_data w :
  ∃ w' e,
    write_raw data_path parsed_data w = (w', Err e) ∧
    w_files w' = w_files w ∧
    new_events w w' [EvOpen (data_path ++ ["papers"; "w"]) ModeR].
Proof.
  unfold write_raw. rewrite io_bind_eq, py_open_read. cbv zeta.
  destruct (w_files w !! (data_path ++ ["papers"; "w"])) as [ls|].
  - rewrite io_bind_eq. unfold lift at 1.
    destruct (dataset_get parsed_data "papers") as [ps|e].
    + rewrite io_bind_eq, json_dump_read_only.
      eexists _, _. split; [reflexivity|]. by split.
    + eexists _, _. split; [reflexivity|]. by split.
  - eexists _, _. split; [reflexivity|]. by split.
Qed.

(** Where the path exists and the dataset has its papers, the error is
    the refused write. *)
Lemma write_raw_unsupported data_path parsed_data w ls ps :
  w_files w !! (data_path ++ ["papers"; "w"]) = Some ls →
  parsed_data !! "papers" = Some ps →
  (write_raw data_path parsed_data w).2 = Err UnsupportedOperation.
Proof.
  intros Hf Hp. unfold write_raw. rewrite io_bind_eq, py_open_read.
  cbv zeta. rewrite Hf. rewrite io_bind_eq. unfold lift at 1.
  unfold dataset_get, dict_getitem. rewrite Hp.
  by rewrite io_bind_eq, json_dump_read_only.
Qed.

(** C4: in [net_struct] mode [load_raw] opens the file of paper indices
    and the file of references, in this order, and no other file; it
    writes nothing; a result holds the two entries ["keys"] and
    ["references_flat"] and none of ["papers"], ["first_authors"],
    ["collaboration_authors"]; and it returns whenever the two files exist
    and the indices are integers. *)
Theorem load_raw_net_struct data_path w :
  let p_ids := data_path ++ ["papers_id"; "r"] in
  let p_refs := data_path ++ ["references_flat"; "r"] in
  let out := load_raw data_path true w in
  (∃ evs, new_events w out.1 evs ∧
          evs `prefix_of` [EvOpen p_ids ModeR; EvOpen p_refs ModeR]) ∧
  w_files out.1 = w_files w ∧
  (∀ parsed_data, out.2 = Ok parsed_data →
     dom parsed_data = {["keys"; "references_flat"]} ∧
     parsed_data !! "papers" = None ∧
     parsed_data !! "first_authors" = None ∧
     parsed_data !! "collaboration_authors" = None) ∧
  (∀ ids keys rows,
     w_files w !! p_ids = Some ids → mapM py_int ids = Ok keys →
     w_files w !! p_refs = Some rows →
     out.2 = Ok (<["references_flat" := VRows (csv_reader rows)]>
                   (<["keys" := VKeys keys]> ∅))).
Proof.
  intros p_ids p_refs out. subst out. unfold load_raw. fold p_ids p_refs.
  rewrite io_bind_eq, py_open_read. cbv zeta.
  destruct (w_files w !! p_ids) as [ids|] eqn:Hids; simpl.
  2:{ split; [exists [EvOpen p_ids ModeR]; split; [done|by exists [EvOpen p_refs ModeR]]|].
      split; [done|]. split; [done|]. done. }
  rewrite io_bind_eq. unfold lift at 1.
  destruct (mapM py_int ids) as [keys|e] eqn:Hkeys; simpl.
  2:{ split; [exists [EvOpen p_ids ModeR]; split; [done|by exists [EvOpen p_refs ModeR]]|].
      split; [done|]. split; [done|]. intros ??? [= <-]. by rewrite Hkeys. }
  rewrite io_bind_eq, py_open_read. cbv zeta. simpl.
  destruct (w_files w !! p_refs) as [rows|] eqn:Hrows; simpl.
  2:{ split.
      { exists [EvOpen p_ids ModeR; EvOpen p_refs ModeR].
        split; [unfold new_events; simpl; by rewrite <- app_assoc|done]. }
      split; [done|]. split; [done|]. done. }
  split.
  { exists [EvOpen p_ids ModeR; EvOpen p_refs ModeR].
    split; [unfold new_events; simpl; by rewrite <- app_assoc|done]. }
  split; [done|]. split.
  - intros parsed_data [= <-]. split.
    + rewrite !dom_insert_L, dom_empty_L. set_solver.
    + by simplify_map_eq.
  - intros ids' keys' rows' [= <-] Hk [= <-]. rewrite Hkeys in Hk.
    by injection Hk as <-.
Qed.

End Raw.

(** The data directory [Demo.fs] holds the two structural files only:
    [load_raw] returns the indices 0 and 1 and the row of one reference,
    opens these two files and never looks for the metadata. *)
Lemma load_raw_net_struct_witness :
  (load_raw (H := Demo.lib) ["data"] true Demo.fs).2
  = Ok (<["references_flat" := VRows [["1"; "0"]]]>
          (<["keys" := VKeys [0%Z; 1%Z]]> ∅)).
Proof.
  destruct (load_raw_net_struct (H := Demo.lib) ["data"] Demo.fs)
    as (_ & _ & _ & Hret).
  apply (Hret ["0" +:+ newline; "1" +:+ newline] [0%Z; 1%Z] ["1,0" +:+ newline]);
    reflexivity.
Defined.

(** ** preprocess *)

Section Orchestrator.
Context `{PyLib}.

(** C6: with neither format selected [preprocess] raises [ValueError].
    Up to that point it has opened, listed and written nothing: the file
    system is as before, and the only event is the resolution of the
    module's own path when no [data_path] was given. *)
Theorem preprocess_no_format dumpGraph dumpRawData dumpLight data_path w :
  ∃ w' evs,
    preprocess dumpGraph dumpRawData false false dumpLight data_path w
      = (w', Err ValueError) ∧
    w_files w' = w_files w ∧
    new_events w w' evs ∧
    evs = match data_path with None => [EvRealpath] | Some _ => [] end ∧
    Forall (fun e => touches e = false) evs.
Proof.
  unfold preprocess, preprocess_body. destruct data_path as [p|].
  - exists w, []. split; [reflexivity|]. split; [done|].
    split; [unfold new_events; by rewrite app_nil_r|]. by split.
  - eexists _, [EvRealpath]. split; [reflexivity|]. split; [done|].
    split; [done|]. split; [done|]. by repeat constructor.
Qed.

End Orchestrator.

(** * Further properties of the module *)

(** ** safe_append and the registration of authors *)

(** [safe_append] adds the key to the keys of the dictionary and removes
    none. *)
Lemma safe_append_dom `{Countable K} {A} (d : gmap K (list A)) k e :
  dom (safe_append d k e) = {[k]} ∪ dom d.
Proof.
  unfold safe_append. destruct (d !! k); by rewrite dom_insert_L.
Qed.

Lemma register_authors_cons ca a names i :
  register_authors ca (a :: names) i
  = register_authors (safe_append ca a i) names i.
Proof. reflexivity. Qed.

Lemma filter_eq_absent (names : list string) name :
  name ∉ names → filter (fun a => a = name) names = [].
Proof.
  induction names as [|a names IH]; [done|].
  intros Hnin. apply not_elem_of_cons in Hnin as [Hne Hnin].
  rewrite filter_cons_False by done. by apply IH.
Qed.

(** X1: after the registration loop the entry of a name is its previous
    list followed by the paper index once per occurrence of the name in
    the byline; a name that does not occur keeps its entry, present or
    absent. *)
Theorem register_authors_lookup ca names i name :
  register_authors ca names i !! name
  = if decide (name ∈ names)
    then Some (default [] (ca !! name)
               ++ replicate (length (filter (fun a => a = name) names)) i)
    else ca !! name.
Proof.
  revert ca. induction names as [|a names IH]; intros ca.
  - rewrite decide_False by apply not_elem_of_nil. done.
  - rewrite register_authors_cons, IH.
    destruct (decide (a = name)) as [->|Hne].
    + rewrite (decide_True (P := name ∈ name :: names)) by apply list_elem_of_here.
      rewrite filter_cons_True by done. rewrite safe_append_lookup. simpl.
      case_decide; [by rewrite <- app_assoc|].
      by rewrite filter_eq_absent.
    + rewrite safe_append_lookup_ne by done.
      rewrite filter_cons_False by done.
      destruct (decide (name ∈ names)) as [Hin|Hnin].
      * rewrite decide_True; [done|]. by apply list_elem_of_further.
      * rewrite decide_False; [done|]. rewrite elem_of_cons. naive_solver.
Qed.

(** ** The string operations of the V8 parser *)

Lemma str_split_comma_cons s : ∃ h t, str_split_comma s = h :: t.
Proof.
  destruct s as [|c s]; simpl; [by eexists _, _|].
  destruct (Ascii.eqb c ","); [by eexists _, _|].
  destruct (str_split_comma s); by eexists _, _.
Qed.

(** X2: joining the pieces of [s.split(",")] with commas gives [s] back. *)
Theorem str_split_comma_join s :
  String.concat "," (str_split_comma s) = s.
Proof.
  induction s as [|c s IH]; [done|]. simpl.
  destruct (str_split_comma_cons s) as (h & t & Hs). rewrite Hs in IH |- *.
  destruct (Ascii.eqb c ",") eqn:Hc.
  - apply Ascii.eqb_eq in Hc as ->. simpl in IH |- *. by rewrite IH.
  - simpl in IH |- *. destruct t; simpl; by rewrite <- IH.
Qed.

(** X3: [s.split(",")] yields one piece more than [s] has commas, so at
    least one, and no piece holds a comma. *)
Theorem str_split_comma_pieces s :
  length (str_split_comma s) = S (count_commas s) ∧
  Forall (fun piece => count_commas piece = 0) (str_split_comma s).
Proof.
  induction s as [|c s [IHlen IHall]]; [by split; [|repeat constructor]|].
  simpl. destruct (str_split_comma_cons s) as (h & t & Hs).
  rewrite Hs in IHlen, IHall |- *.
  destruct (Ascii.eqb c ",") eqn:Hc; simpl.
  - split; [by rewrite <- IHlen|]. by constructor.
  - split; [by rewrite <- IHlen|].
    apply Forall_cons in IHall as [Hh Ht]. constructor; [|done].
    simpl. by rewrite Hc.
Qed.

Lemma substring_skip p n s :
  String.substring (String.length p) n (p +:+ s) = String.substring 0 n s.
Proof. induction p as [|c p IH]; [done|]. simpl. apply IH. Qed.

Lemma substring_prefix body rest :
  String.substring 0 (String.length body) (body +:+ rest) = body.
Proof.
  induction body as [|c body IH]; simpl; [by destruct rest|]. by rewrite IH.
Qed.

Lemma string_length_app s1 s2 :
  String.length (s1 +:+ s2) = String.length s1 + String.length s2.
Proof. induction s1 as [|c s1 IH]; simpl; [done|]. by rewrite IH. Qed.

Lemma str_slice_app p body c :
  str_slice (String.length p) (p +:+ body +:+ String c EmptyString) = body.
Proof.
  unfold str_slice. rewrite !string_length_app. simpl.
  replace (String.length p + (String.length body + 1) - 1 - String.length p)
    with (String.length body) by lia.
  by rewrite substring_skip, substring_prefix.
Qed.

(** X4: [line[n:-1]] of a line made of [n] leading characters, a body and
    one final character is the body; a line of at most [n + 1] characters
    gives the empty text and no error. *)
Theorem str_slice_body p body c :
  str_slice (String.length p) (p +:+ body +:+ String c EmptyString) = body ∧
  (∀ s n, String.length s ≤ S n → str_slice n s = EmptyString).
Proof.
  split; [apply str_slice_app|].
  intros s n Hlen. unfold str_slice.
  replace (String.length s - 1 - n) with 0 by lia.
  generalize n. clear. induction s as [|c s IH]; intros [|n]; simpl; auto.
Qed.

(** A line [#], a tag, a body and one final character. *)
Lemma str_slice_tag tag body c :
  str_slice 2 (String "#" (String tag (body +:+ String c EmptyString))) = body.
Proof.
  apply (str_slice_app (String "#" (String tag EmptyString)) body c).
Qed.

(** ** The tagged lines of the V8 format *)

Section V8Lines.
Context `{PyLib}.

(** X5: a line [#*], [#@], [#c] or [#!] followed by a text and one final
    character sets the title, the authors (the text split at its commas),
    the venue or the abstract to that text, and changes nothing else. *)
Theorem v8_text_lines st wk body c :
  let line tag := String "#" (String tag (body +:+ String c EmptyString)) in
  v8_line (st, wk) (line "*"%char) = Ok (st, set_title wk body) ∧
  v8_line (st, wk) (line "@"%char)
    = Ok (st, set_authors wk (str_split_comma body)) ∧
  v8_line (st, wk) (line "c"%char) = Ok (st, set_venue wk body) ∧
  v8_line (st, wk) (line "!"%char) = Ok (st, set_abstract wk body).
Proof.
  intros line. subst line.
  repeat split; unfold v8_line, v8_tagged; cbn -[str_slice];
    by rewrite !str_slice_tag.
Qed.

(** X6: an id line, [#i] and four further characters followed by the id
    and one final character, makes the id the current paper id and maps
    it to the current index; a later id line of the same record maps its
    own id to the same index and leaves the earlier entry in place. *)
Theorem v8_id_line st wk q body c :
  String.length q = 4 →
  v8_line (st, wk)
    (String "#" (String "i" (q +:+ body +:+ String c EmptyString)))
  = Ok (set_id2idx st body, set_paper_id wk body) ∧
  id2idx (set_id2idx st body) !! body = Some (idx st) ∧
  ∀ other, other ≠ body →
    id2idx (set_id2idx st body) !! other = id2idx st !! other.
Proof.
  intros Hq.
  assert (str_slice 6 (String "#" (String "i" (q +:+ body +:+ String c EmptyString)))
          = body) as Hslice.
  { pose proof (str_slice_app (String "#" (String "i" q)) body c) as Hb.
    simpl String.length in Hb. rewrite Hq in Hb. exact Hb. }
  split; [|split].
  - unfold v8_line, v8_tagged. cbn -[str_slice]. by rewrite Hslice.
  - simpl. by rewrite lookup_insert_eq.
  - intros other Hne. simpl. by rewrite lookup_insert_ne.
Qed.

(** X7: a reference line [#%] appends the pair of the current paper id
    and the integer that [int] reads from its text, and changes nothing
    else; when [int] refuses the text its error ends the parse.  Before
    any id line of the record the current paper id is the default [-1]. *)
Theorem v8_reference_line st wk body c :
  let line := String "#" (String "%" (body +:+ String c EmptyString)) in
  (∀ t, py_int body = Ok t →
        v8_line (st, wk) line = Ok (append_reference st (paper_id wk, PInt t), wk)) ∧
  (∀ e, py_int body = Err e → v8_line (st, wk) line = Err e).
Proof.
  intros line. subst line. split.
  - intros t Ht. unfold v8_line, v8_tagged. cbn -[str_slice].
    rewrite !str_slice_tag, Ht. done.
  - intros e He. unfold v8_line, v8_tagged. cbn -[str_slice].
    rewrite !str_slice_tag, He. done.
Qed.

(** X8: a year line [#t] sets the year to the integer that [int] reads
    from its text; when [int] refuses the text its error ends the parse. *)
Theorem v8_year_line st wk body c :
  let line := String "#" (String "t" (body +:+ String c EmptyString)) in
  (∀ y, py_int body = Ok y → v8_line (st, wk) line = Ok (st, set_year wk y)) ∧
  (∀ e, py_int body = Err e → v8_line (st, wk) line = Err e).
Proof.
  intros line. subst line. split.
  - intros y Hy. unfold v8_line, v8_tagged. cbn -[str_slice].
    rewrite !str_slice_tag, Hy. done.
  - intros e He. unfold v8_line, v8_tagged. cbn -[str_slice].
    rewrite !str_slice_tag, He. done.
Qed.

(** X9: a line that starts with [#] and a character that is none of the
    seven tags is accepted and ignored: no error, no change. *)
Theorem v8_unknown_tag st wk tag rest :
  v8_known_tag tag = false →
  v8_line (st, wk) (String "#" (String tag rest)) = Ok (st, wk).
Proof.
  unfold v8_known_tag. intros Htag.
  repeat (apply orb_false_elim in Htag as [Htag ?]).
  unfold v8_line, v8_tagged. cbn -[str_slice Ascii.eqb].
  change (Ascii.eqb "#" "#") with true. cbv iota.
  repeat match goal with
         | Hc : Ascii.eqb tag _ = false |- _ => rewrite Hc; clear Hc
         end.
  done.
Qed.

End V8Lines.

(** ** What the parsers can return *)

Lemma resolve_v8_pairs id2idx raw :
  Forall v8_pair raw → raw ≠ [] →
  resolve_references id2idx raw = Err KeyError.
Proof.
  intros Hall Hne. destruct raw as [|e raw]; [done|].
  apply Forall_cons in Hall as [[Hsrc [t Ht]] _].
  rewrite resolve_references_cons.
  assert (resolve_edge id2idx e = Err KeyError) as ->; [|done].
  destruct e as [src tgt]. simpl in Hsrc, Ht. subst tgt.
  unfold resolve_edge. simpl.
  destruct src as [s|z|l]; simpl; [|done..].
  by destruct (id2idx !! s).
Qed.

Section ParserResults.
Context `{PyLib}.

Lemma v8_tagged_pairs st wk line st' wk' :
  v8_tagged st wk line = Ok (st', wk') →
  hashable (paper_id wk) = true → Forall v8_pair (references_flat st) →
  hashable (paper_id wk') = true ∧ Forall v8_pair (references_flat st').
Proof.
  intros Htag Hid Hrefs. unfold v8_tagged in Htag.
  apply bind_Ok_inv in Htag as (c & _ & Htag).
  destruct (Ascii.eqb c "*"), (Ascii.eqb c "@");
    apply bind_Ok_inv in Htag as (wk1 & Hwk1 & Htag);
    (destruct (Ascii.eqb c "t"); [inv_binds Hwk1|]);
    injection Hwk1 as <-;
    destruct (Ascii.eqb c "c"), (Ascii.eqb c "i");
    apply bind_Ok_inv in Htag as (st1 & Hst1 & Htag);
    injection Htag as <- <-;
    (destruct (Ascii.eqb c "%"); [inv_binds Hst1|]);
    injection Hst1 as <-;
    destruct (Ascii.eqb c "!"); simpl;
    (split; [done|]);
    try done;
    (apply Forall_app; split; [done|]);
    repeat constructor; simpl; eauto.
Qed.

Lemma v8_line_pairs s line s' :
  v8_line s line = Ok s' →
  hashable (paper_id s.2) = true ∧ Forall v8_pair (references_flat s.1) →
  hashable (paper_id s'.2) = true ∧ Forall v8_pair (references_flat s'.1).
Proof.
  intros Hline [Hid Hrefs]. unfold v8_line in Hline.
  apply bind_Ok_inv in Hline as (c & _ & Hline).
  destruct s' as [st' wk']. destruct (Ascii.eqb "#" c).
  - by eapply v8_tagged_pairs.
  - unfold v8_finalize in Hline. inv_binds Hline.
    by injection Hline as <- <-.
Qed.

Lemma v8_loop_pairs lines s :
  foldM v8_line (pstate_init, v8_defaults) lines = Ok s →
  Forall v8_pair (references_flat s.1).
Proof.
  intros Hloop.
  assert (hashable (paper_id s.2) = true ∧ Forall v8_pair (references_flat s.1))
    as [_ Hrefs]; [|done].
  revert Hloop.
  apply (foldM_result_inv
           (fun s => hashable (paper_id s.2) = true ∧
                     Forall v8_pair (references_flat s.1)) v8_line).
  - intros b x b' Hb Hline. by eapply v8_line_pairs.
  - by split.
Qed.

(** X11: whatever lines the V8 loop has read from the initial state, every
    accumulated reference has an integer target while the id mapping has
    text keys only, so as soon as one reference was read the resolution
    raises [KeyError]. *)
Theorem v8_references_never_resolve lines s :
  foldM v8_line (pstate_init, v8_defaults) lines = Ok s →
  Forall v8_pair (references_flat s.1) ∧
  (references_flat s.1 ≠ [] →
   resolve_references (id2idx s.1) (references_flat s.1) = Err KeyError).
Proof.
  intros Hloop. pose proof (v8_loop_pairs lines s Hloop) as Hrefs.
  split; [done|]. by apply resolve_v8_pairs.
Qed.

(** A state in which nothing was stored. *)
Let nothing_stored (st : pstate) : Prop :=
  papers st = [] ∧ first_authors st = ∅ ∧ collaboration_authors st = ∅.

Lemma make_parsed_data_nothing st :
  nothing_stored st → make_parsed_data st [] = make_parsed_data pstate_init [].
Proof. intros (Hp & Hfa & Hca). unfold make_parsed_data. by rewrite Hp, Hfa, Hca. Qed.

Lemma v8_line_nothing_stored s line s' :
  nothing_stored s.1 → v8_line s line = Ok s' → nothing_stored s'.1.
Proof.
  intros (Hp & Hfa & Hca) Hline. unfold v8_line in Hline.
  apply bind_Ok_inv in Hline as (c & _ & Hline).
  destruct s' as [st' wk']. destruct (Ascii.eqb "#" c).
  - apply v8_tagged_authors in Hline as (Hp' & _ & Hfa' & Hca').
    unfold nothing_stored. simpl. by rewrite Hp', Hfa', Hca'.
  - rewrite v8_finalize_raises in Hline; [done|]. rewrite Hp. simpl. lia.
Qed.

(** Whenever [read_v8] returns, it returns the empty dataset. *)
Lemma read_v8_Ok_empty data_path w w' parsed_data :
  read_v8 data_path w = (w', Ok parsed_data) →
  parsed_data = make_parsed_data pstate_init [].
Proof.
  intros Hread. unfold read_v8 in Hread.
  apply io_bind_Ok_inv in Hread as (w1 & acm & _ & Hread).
  apply io_bind_Ok_inv in Hread as (w2 & s & Hloop & Hread).
  apply io_bind_Ok_inv in Hread as (w3 & resolved & Hres & Hread).
  injection Hread as _ <-.
  apply lift_Ok_inv in Hloop as [_ Hloop]. apply lift_Ok_inv in Hres as [_ Hres].
  assert (resolved = []) as ->.
  { destruct (references_flat s.1) as [|e refs] eqn:Hrefs.
    - by injection Hres as <-.
    - rewrite resolve_v8_pairs in Hres; [done| |done].
      rewrite <- Hrefs. by eapply v8_loop_pairs. }
  apply make_parsed_data_nothing. revert Hloop.
  apply (foldM_result_inv (fun s => nothing_stored s.1) v8_line);
    [|by repeat split].
  intros b x b'. apply v8_line_nothing_stored.
Qed.

Lemma v10_file_nothing_stored st lines st' :
  nothing_stored st ∧ references_flat st = [] →
  v10_file st lines = Ok st' →
  nothing_stored st' ∧ references_flat st' = [].
Proof.
  intros [(Hp & Hfa & Hca) Hrefs] Hfile. destruct lines as [|line lines].
  - injection Hfile as <-. by repeat split.
  - pose proof (v10_file_nonempty_fails st line lines) as Hfail.
    rewrite Hfile in Hfail. simpl in Hfail.
    assert (true = false); [|done]. apply Hfail. rewrite Hp. simpl. lia.
Qed.

(** Whenever [read_v10] returns, it returns the empty dataset. *)
Lemma read_v10_Ok_empty data_path w w' parsed_data :
  read_v10 data_path w = (w', Ok parsed_data) →
  parsed_data = make_parsed_data pstate_init [].
Proof.
  intros Hread. unfold read_v10 in Hread.
  apply io_bind_Ok_inv in Hread as (w1 & tree & _ & Hread).
  apply io_bind_Ok_inv in Hread as (w2 & st & Hloop & Hread).
  apply io_bind_Ok_inv in Hread as (w3 & resolved & Hres & Hread).
  injection Hread as _ <-. apply lift_Ok_inv in Hres as [_ Hres].
  assert (nothing_stored st ∧ references_flat st = []) as [Hst Hrefs].
  { revert Hloop.
    apply (foldM_io_inv (fun st => nothing_stored st ∧ references_flat st = []));
      [|by repeat split].
    intros b entry wa wb b' Hb.
    apply (foldM_io_inv (fun st => nothing_stored st ∧ references_flat st = []));
      [|done].
    clear. intros b file wa wb b' Hb Hbody.
    apply io_bind_Ok_inv in Hbody as (wc & dblp & _ & Hbody).
    apply lift_Ok_inv in Hbody as [_ Hfile]. by eapply v10_file_nothing_stored. }
  rewrite Hrefs in Hres. injection Hres as <-.
  by apply make_parsed_data_nothing.
Qed.

(** X10: a V8 dump none of whose lines lacks the leading [#] stores
    nothing: a record that no untagged line follows is dropped, with no
    paper stored, no author registered and the index where it was. *)
Theorem v8_unterminated_dropped lines s s' :
  Forall (fun line => str_index line 0 = Ok "#"%char) lines →
  foldM v8_line s lines = Ok s' →
  papers s'.1 = papers s.1 ∧ idx s'.1 = idx s.1 ∧
  first_authors s'.1 = first_authors s.1 ∧
  collaboration_authors s'.1 = collaboration_authors s.1.
Proof.
  intros Hall. revert s. induction Hall as [|line lines Hline _ IH]; intros s.
  - by intros [= <-].
  - simpl. intros Hloop. apply bind_Ok_inv in Hloop as (s1 & Hs1 & Hloop).
    destruct (IH s1 Hloop) as (-> & -> & -> & ->).
    by apply (v8_tagged_never_finalizes s line s1 "#"%char).
Qed.

End ParserResults.

(** ** What the module does to the file system *)

Lemma read_only_ret {A} (a : A) : read_only (mret a : io A).
Proof.
  intros w. repeat split. exists []. split; [|done].
  unfold new_events. simpl. by rewrite app_nil_r.
Qed.

Lemma read_only_lift {A} (r : result A) : read_only (lift r).
Proof.
  intros w. repeat split. exists []. split; [|done].
  unfold new_events. simpl. by rewrite app_nil_r.
Qed.

Lemma read_only_raise {A} e : read_only (raise e : io A).
Proof. apply (read_only_lift (Err e)). Qed.

Lemma read_only_bind {A B} (m : io A) (f : A → io B) :
  read_only m → (∀ a, read_only (f a)) → read_only (m ≫= f).
Proof.
  intros Hm Hf w. rewrite io_bind_eq.
  destruct (Hm w) as (Hfiles & Hwalk & Hdir & evs & Hlog & Hevs).
  destruct (m w) as [w1 [a|e]]; simpl in *.
  - destruct (Hf a w1) as (Hfiles' & Hwalk' & Hdir' & evs' & Hlog' & Hevs').
    split; [congruence|]. split; [congruence|]. split; [congruence|].
    exists (evs ++ evs'). split; [|by apply Forall_app].
    unfold new_events in *. by rewrite Hlog', Hlog, app_assoc.
  - repeat split; [done..|]. by exists evs.
Qed.

Lemma read_only_foldM {A B} (f : B → A → io B) l :
  (∀ b x, read_only (f b x)) → ∀ b, read_only (foldM f b l).
Proof.
  intros Hf. induction l as [|x l IH]; intros b; simpl.
  - apply read_only_ret.
  - apply read_only_bind; [apply Hf | apply IH].
Qed.

Lemma read_only_open {A} p (f : handle → io A) :
  (∀ ls, read_only (f (mk_handle p ModeR ls))) →
  read_only (py_open p ModeR ≫= f).
Proof.
  intros Hf w. rewrite io_bind_eq, py_open_read. cbv zeta.
  destruct (w_files w !! p) as [ls|].
  - match goal with
    | |- context [f _ ?w1] =>
        destruct (Hf ls w1) as (Hfiles & Hwalk & Hdir & evs & Hlog & Hevs)
    end.
    simpl in *. repeat split; [done..|].
    exists (EvOpen p ModeR :: evs). split; [|by constructor].
    unfold new_events in *. rewrite Hlog. simpl. by rewrite <- app_assoc.
  - simpl. repeat split. exists [EvOpen p ModeR]. split; [done|].
    by repeat constructor.
Qed.

Lemma read_only_os_walk p : read_only (os_walk p).
Proof.
  intros w. rewrite os_walk_eq. simpl. repeat split.
  exists [EvWalk p]. split; [done|]. by repeat constructor.
Qed.

Lemma read_only_module_dir : read_only module_dir.
Proof.
  intros w. unfold module_dir. simpl. repeat split.
  exists [EvRealpath]. split; [done|]. by repeat constructor.
Qed.

Lemma read_only_if {A} (b : bool) (m1 m2 : io A) :
  read_only m1 → read_only m2 → read_only (if b then m1 else m2).
Proof. by destruct b. Qed.

Section FileSystem.
Context `{PyLib}.

Lemma read_only_read_v10 data_path : read_only (read_v10 data_path).
Proof.
  unfold read_v10. apply read_only_bind; [apply read_only_os_walk|].
  intros tree. apply read_only_bind.
  - apply read_only_foldM. intros st entry. apply read_only_foldM.
    intros st' file. apply read_only_open. intros ls. apply read_only_lift.
  - intros st. apply read_only_bind; [apply read_only_lift|].
    intros resolved. apply read_only_ret.
Qed.

Lemma read_only_read_v8 data_path : read_only (read_v8 data_path).
Proof.
  unfold read_v8. apply read_only_open. intros ls.
  apply read_only_bind; [apply read_only_lift|]. intros s.
  apply read_only_bind; [apply read_only_lift|]. intros resolved.
  apply read_only_ret.
Qed.

Lemma read_only_load_raw data_path net_struct :
  read_only (load_raw data_path net_struct).
Proof.
  unfold load_raw. apply read_only_open. intros ls.
  apply read_only_bind; [apply read_only_lift|]. intros keys.
  apply read_only_open. intros ls'. apply read_only_if; [|apply read_only_ret].
  apply read_only_open. intros ls1.
  apply read_only_bind; [apply read_only_lift|]. intros j1.
  apply read_only_open. intros ls2.
  apply read_only_bind; [apply read_only_lift|]. intros j2.
  apply read_only_open. intros ls3.
  apply read_only_bind; [apply read_only_lift|]. intros j3.
  apply read_only_ret.
Qed.

Lemma read_only_file_write p ls s :
  read_only (file_write (mk_handle p ModeR ls) s).
Proof. apply read_only_raise. Qed.

Lemma read_only_write_raw data_path parsed_data :
  read_only (write_raw data_path parsed_data).
Proof.
  unfold write_raw, json_dump, for_each.
  apply read_only_open. intros ls1.
  apply read_only_bind; [apply read_only_lift|]. intros ps.
  apply read_only_bind; [apply read_only_file_write|]. intros _.
  apply read_only_open. intros ls2.
  apply read_only_bind; [apply read_only_lift|]. intros ps'.
  apply read_only_bind; [apply read_only_lift|]. intros keys.
  apply read_only_bind.
  { apply read_only_foldM. intros _ key. apply read_only_file_write. }
  intros _. apply read_only_open. intros ls3.
  apply read_only_bind; [apply read_only_lift|]. intros fa.
  apply read_only_bind; [apply read_only_file_write|]. intros _.
  apply read_only_open. intros ls4.
  apply read_only_bind; [apply read_only_lift|]. intros ca.
  apply read_only_bind; [apply read_only_file_write|]. intros _.
  apply read_only_open. intros ls5.
  apply read_only_bind; [apply read_only_lift|]. intros rf.
  apply read_only_bind; [apply read_only_lift|]. intros rows.
  apply read_only_foldM. intros _ ref. apply read_only_file_write.
Qed.

Lemma read_only_write_pickle g : read_only (write_pickle g).
Proof.
  unfold write_pickle. destruct (g_backend g);
    [apply read_only_ret | apply read_only_raise].
Qed.

Lemma read_only_preprocess_body self dumpGraph dumpRawData v10 v8 dumpLight
    data_path :
  read_only self →
  read_only (preprocess_body self dumpGraph dumpRawData v10 v8 dumpLight data_path).
Proof.
  intros Hself. unfold preprocess_body. apply read_only_bind.
  { destruct data_path; [apply read_only_ret|].
    apply read_only_bind; [apply read_only_module_dir|].
    intros my_path. apply read_only_ret. }
  intros p. apply read_only_bind.
  { apply read_only_if; [done | apply read_only_ret]. }
  intros _. apply read_only_bind.
  { apply read_only_if; [apply read_only_read_v10|].
    apply read_only_if; [apply read_only_read_v8 | apply read_only_raise]. }
  intros parsed_data. apply read_only_bind.
  { apply read_only_if; [apply read_only_write_raw | apply read_only_ret]. }
  intros _. apply read_only_bind; [apply read_only_lift|].
  intros gw. apply read_only_if; [apply read_only_write_pickle | apply read_only_ret].
Qed.

(** X14: no function of the module changes the file system.  Every file
    is opened for reading, also by [write_raw]; [preprocess], the two
    parsers, [write_raw] and [load_raw] leave every file as it was and
    log no write and no opening for writing, on every input and whether
    they return or raise. *)
Theorem module_never_writes data_path parsed_data :
  (∀ dumpGraph dumpRawData v10 v8 dumpLight opt_path,
     read_only (preprocess dumpGraph dumpRawData v10 v8 dumpLight opt_path)) ∧
  read_only (read_v10 data_path) ∧
  read_only (read_v8 data_path) ∧
  read_only (write_raw data_path parsed_data) ∧
  (∀ net_struct, read_only (load_raw data_path net_struct)).
Proof.
  split; [|split; [|split; [|split]]].
  - intros. unfold preprocess. apply read_only_preprocess_body.
    apply read_only_preprocess_body. apply read_only_raise.
  - apply read_only_read_v10.
  - apply read_only_read_v8.
  - apply read_only_write_raw.
  - apply read_only_load_raw.
Qed.

End FileSystem.

(** ** What [preprocess] can do *)

Lemma never_returns_bind_l {A B} (m : io A) (f : A → io B) :
  never_returns m → never_returns (m ≫= f).
Proof.
  intros Hm w. rewrite io_bind_eq. specialize (Hm w).
  by destruct (m w) as [w1 [a|e]].
Qed.

Lemma never_returns_bind {A B} (m : io A) (f : A → io B) (P : A → Prop) :
  returns_only m P → (∀ a, P a → never_returns (f a)) →
  never_returns (m ≫= f).
Proof.
  intros Hm Hf w. rewrite io_bind_eq.
  destruct (m w) as [w1 [a|e]] eqn:Hmw; [|done].
  apply Hf. by eapply Hm.
Qed.

Lemma never_returns_bind_r {A B} (m : io A) (f : A → io B) :
  (∀ a, never_returns (f a)) → never_returns (m ≫= f).
Proof.
  intros Hf. apply (never_returns_bind m f (fun _ => True)); [done|].
  intros a _. apply Hf.
Qed.

Section Pipeline.
Context `{PyLib}.

(** What the parsers hand to the rest of the pipeline. *)
Let parser_output (parsed_data : dataset) : Prop :=
  ∃ st resolved, parsed_data = make_parsed_data st resolved.

Lemma read_v10_output data_path : returns_only (read_v10 data_path) parser_output.
Proof.
  intros w w' pd Hread. unfold read_v10 in Hread.
  apply io_bind_Ok_inv in Hread as (w1 & tree & _ & Hread).
  apply io_bind_Ok_inv in Hread as (w2 & st & _ & Hread).
  apply io_bind_Ok_inv in Hread as (w3 & resolved & _ & Hread).
  injection Hread as _ <-. by exists st, resolved.
Qed.

Lemma read_v8_output data_path : returns_only (read_v8 data_path) parser_output.
Proof.
  intros w w' pd Hread. unfold read_v8 in Hread.
  apply io_bind_Ok_inv in Hread as (w1 & acm & _ & Hread).
  apply io_bind_Ok_inv in Hread as (w2 & s & _ & Hread).
  apply io_bind_Ok_inv in Hread as (w3 & resolved & _ & Hread).
  injection Hread as _ <-. by exists s.1, resolved.
Qed.

Lemma never_returns_preprocess_body self dumpGraph dumpRawData v10 v8
    dumpLight data_path :
  never_returns
    (preprocess_body self dumpGraph dumpRawData v10 v8 dumpLight data_path).
Proof.
  unfold preprocess_body.
  apply never_returns_bind_r. intros p.
  apply never_returns_bind_r. intros _.
  apply (never_returns_bind _ _ parser_output).
  - destruct v10; [apply read_v10_output|].
    destruct v8; [apply read_v8_output|]. by intros w w' a.
  - intros pd (st & resolved & ->).
    apply never_returns_bind_r. intros _.
    apply never_returns_bind_l. by intros w.
Qed.

(** X15: [preprocess] raises on every configuration and every file
    system.  Without a format it raises [ValueError]; with one, the parser
    raises, or [write_raw] raises, or [create_graph] raises [TypeError] on
    the list of papers that the parser returned. *)
Theorem preprocess_never_returns dumpGraph dumpRawData v10 v8 dumpLight
    data_path :
  never_returns (preprocess dumpGraph dumpRawData v10 v8 dumpLight data_path).
Proof. apply never_returns_preprocess_body. Qed.

End Pipeline.

(** ** load_raw in full mode *)

Section LoadRaw.
Context `{PyLib}.

Lemma py_open_Ok_inv p w w' f :
  py_open p ModeR w = (w', Ok f) →
  w_files w' = w_files w ∧ w_log w' = w_log w ++ [EvOpen p ModeR] ∧
  ∃ ls, w_files w !! p = Some ls ∧ f = mk_handle p ModeR ls.
Proof.
  rewrite py_open_read. cbv zeta. destruct (w_files w !! p) as [ls|]; [|done].
  intros [= <- <-]. repeat split. by exists ls.
Qed.

(** The steps of a successful [load_raw], in either mode. *)
Lemma load_raw_Ok_inv data_path net_struct w w' parsed_data :
  load_raw data_path net_struct w = (w', Ok parsed_data) →
  ∃ ids keys rows w2,
    w_files w !! (data_path ++ ["papers_id"; "r"]) = Some ids ∧
    mapM py_int ids = Ok keys ∧
    w_files w !! (data_path ++ ["references_flat"; "r"]) = Some rows ∧
    w_files w2 = w_files w ∧
    w_log w2 = w_log w ++ [EvOpen (data_path ++ ["papers_id"; "r"]) ModeR;
                           EvOpen (data_path ++ ["references_flat"; "r"]) ModeR] ∧
    let structural : dataset :=
      <["references_flat" := VRows (csv_reader rows)]>
        (<["keys" := VKeys keys]> ∅) in
    if net_struct then w' = w2 ∧ parsed_data = structural
    else ∃ j1 j2 j3,
      parsed_data = <["collaboration_authors" := VJson j3]>
                      (<["first_authors" := VJson j2]>
                        (<["papers" := VJson j1]> structural)) ∧
      w_log w' = w_log w2 ++
                 [EvOpen (data_path ++ ["papers"; "r"]) ModeR;
                  EvOpen (data_path ++ ["first_authors"; "r"]) ModeR;
                  EvOpen (data_path ++ ["collaboration_authors"; "r"]) ModeR].
Proof.
  intros Hload. unfold load_raw in Hload.
  apply io_bind_Ok_inv in Hload as (w1 & f1 & Hopen1 & Hload).
  apply py_open_Ok_inv in Hopen1 as (Hf1 & Hl1 & ids & Hids & ->).
  apply io_bind_Ok_inv in Hload as (w1' & keys & Hkeys & Hload).
  apply lift_Ok_inv in Hkeys as [-> Hkeys]. simpl in Hkeys.
  apply io_bind_Ok_inv in Hload as (w2 & f2 & Hopen2 & Hload).
  apply py_open_Ok_inv in Hopen2 as (Hf2 & Hl2 & rows & Hrows & ->).
  rewrite Hf1 in Hrows. simpl in Hload.
  exists ids, keys, rows, w2.
  split; [done|]. split; [done|]. split; [done|]. split; [congruence|].
  split; [rewrite Hl2, Hl1; by rewrite <- app_assoc|].
  cbv zeta. destruct net_struct; simpl in Hload.
  - by injection Hload as <- <-.
  - apply io_bind_Ok_inv in Hload as (w3 & f3 & Hopen3 & Hload).
    apply py_open_Ok_inv in Hopen3 as (_ & Hl3 & _).
    apply io_bind_Ok_inv in Hload as (w3' & j1 & Hj1 & Hload).
    apply lift_Ok_inv in Hj1 as [-> _].
    apply io_bind_Ok_inv in Hload as (w4 & f4 & Hopen4 & Hload).
    apply py_open_Ok_inv in Hopen4 as (_ & Hl4 & _).
    apply io_bind_Ok_inv in Hload as (w4' & j2 & Hj2 & Hload).
    apply lift_Ok_inv in Hj2 as [-> _].
    apply io_bind_Ok_inv in Hload as (w5 & f5 & Hopen5 & Hload).
    apply py_open_Ok_inv in Hopen5 as (_ & Hl5 & _).
    apply io_bind_Ok_inv in Hload as (w5' & j3 & Hj3 & Hload).
    apply lift_Ok_inv in Hj3 as [-> _].
    injection Hload as <- <-. exists j1, j2, j3. split; [done|].
    rewrite Hl5, Hl4, Hl3. by rewrite <- !app_assoc.
Qed.

(** X16: when [load_raw] returns in full mode, the result has exactly the
    five entries ["keys"], ["references_flat"], ["papers"],
    ["first_authors"] and ["collaboration_authors"], and it has opened the
    five files [papers_id/r], [references_flat/r], [papers/r],
    [first_authors/r], [collaboration_authors/r] below the data path, each
    once and in this order. *)
Theorem load_raw_full data_path w w' parsed_data :
  load_raw data_path false w = (w', Ok parsed_data) →
  dom parsed_data = {["keys"; "references_flat"; "papers"; "first_authors";
                      "collaboration_authors"]} ∧
  new_events w w'
    ((fun name => EvOpen (data_path ++ [name; "r"]) ModeR)
     <$> ["papers_id"; "references_flat"; "papers"; "first_authors";
          "collaboration_authors"]).
Proof.
  intros Hload.
  apply load_raw_Ok_inv in Hload
    as (ids & keys & rows & w2 & _ & _ & _ & _ & Hl2 & j1 & j2 & j3 & -> & Hl).
  split.
  - rewrite !dom_insert_L, dom_empty_L. set_solver.
  - unfold new_events. rewrite Hl, Hl2. simpl. by rewrite <- app_assoc.
Qed.

Lemma load_raw_structural_run data_path w ids keys rows :
  w_files w !! (data_path ++ ["papers_id"; "r"]) = Some ids →
  mapM py_int ids = Ok keys →
  w_files w !! (data_path ++ ["references_flat"; "r"]) = Some rows →
  ∃ w2, load_raw data_path true w
        = (w2, Ok (<["references_flat" := VRows (csv_reader rows)]>
                     (<["keys" := VKeys keys]> ∅))).
Proof.
  intros Hids Hkeys Hrows. unfold load_raw.
  rewrite io_bind_eq, py_open_read. cbv zeta. rewrite Hids.
  rewrite io_bind_eq. unfold lift at 1. cbn [h_lines]. rewrite Hkeys.
  rewrite io_bind_eq, py_open_read. cbv zeta. cbn [w_files]. rewrite Hrows.
  by eexists.
Qed.

(** X17: when [load_raw] returns in full mode, it also returns in
    [net_struct] mode on the same file system, and that result is the
    part of the full one under ["keys"] and ["references_flat"]. *)
Theorem load_raw_modes_agree data_path w w' parsed_data :
  load_raw data_path false w = (w', Ok parsed_data) →
  ∃ w2 structural,
    load_raw data_path true w = (w2, Ok structural) ∧
    structural ⊆ parsed_data ∧
    structural !! "keys" = parsed_data !! "keys" ∧
    structural !! "references_flat" = parsed_data !! "references_flat".
Proof.
  intros Hload.
  apply load_raw_Ok_inv in Hload
    as (ids & keys & rows & w2 & Hids & Hkeys & Hrows & _ & _ & j1 & j2 & j3 & -> & _).
  destruct (load_raw_structural_run data_path w ids keys rows Hids Hkeys Hrows)
    as [w3 Hrun].
  eexists _, _. split; [exact Hrun|]. split; [|by simplify_map_eq].
  do 3 (etrans; [|apply insert_subseteq; by simplify_map_eq]). done.
Qed.

(** X18: [load_raw] reads the index file first: when no file can be
    opened at its path [load_raw] raises, and when [int] refuses one of
    its lines it raises the error of [int]; in both cases, and in both
    modes, the index file is the only file it has tried to open. *)
Theorem load_raw_index_file_errors data_path net_struct w :
  let p_ids := data_path ++ ["papers_id"; "r"] in
  let out := load_raw data_path net_struct w in
  (w_files w !! p_ids = None →
   is_ok out.2 = false ∧ new_events w out.1 [EvOpen p_ids ModeR]) ∧
  (∀ ids e, w_files w !! p_ids = Some ids → mapM py_int ids = Err e →
   out.2 = Err e ∧ new_events w out.1 [EvOpen p_ids ModeR]).
Proof.
  intros p_ids out. subst out. unfold load_raw. fold p_ids.
  rewrite io_bind_eq, py_open_read. cbv zeta. split.
  - intros ->. by split.
  - intros ids e -> Hids. rewrite io_bind_eq. unfold lift at 1.
    cbn [h_lines]. rewrite Hids. by split.
Qed.

End LoadRaw.

(** ** read_v10 and the two directories *)

Section Directories.
Context `{PyLib}.


(** X20: when the walk of [dblp-ref] yields nothing, as for a directory
    that does not exist or is empty, [read_v10] opens no file and returns
    the empty dataset instead of raising. *)
Theorem read_v10_empty_walk data_path w :
  w_walk w (data_path ++ ["dblp-ref"]) = [] →
  (read_v10 data_path w).2 = Ok (make_parsed_data pstate_init []) ∧
  new_events w (read_v10 data_path w).1 [EvWalk (data_path ++ ["dblp-ref"])].
Proof.
  intros Hwalk. unfold read_v10.
  rewrite io_bind_eq, os_walk_eq, Hwalk. by split.
Qed.

End Directories.

(** ** Resolution, when it succeeds *)

Lemma resolve_references_Forall2 id2idx raw edges :
  resolve_references id2idx raw = Ok edges ↔
  Forall2 (resolved_as id2idx) raw edges.
Proof.
  revert edges. induction raw as [|e raw IH]; intros edges.
  - split.
    + intros [= <-]. constructor.
    + intros Hall. by apply Forall2_nil_inv_l in Hall as ->.
  - rewrite resolve_references_cons. split.
    + intros Hres. apply bind_Ok_inv in Hres as (ab & Hedge & Hres).
      apply bind_Ok_inv in Hres as (es & Hes & Hres). injection Hres as <-.
      constructor; [|by apply IH].
      unfold resolve_edge in Hedge.
      apply bind_Ok_inv in Hedge as (a & Ha & Hedge).
      apply bind_Ok_inv in Hedge as (b & Hb & Hedge). injection Hedge as <-.
      destruct e as [[s1| |] [s2| |]]; simpl in Ha, Hb; try done.
      exists s1, s2. split; [done|]. simpl.
      destruct (id2idx !! s1); [|done]. destruct (id2idx !! s2); [|done].
      by injection Ha as <-; injection Hb as <-.
    + intros Hall. apply Forall2_cons_inv_l in Hall
        as (ab & es & (s1 & s2 & -> & H1 & H2) & Hes & ->).
      apply IH in Hes. unfold resolve_edge. simpl. rewrite H1, H2. simpl.
      rewrite Hes. simpl. by destruct ab.
Qed.

(** X21: resolution returns an edge list exactly when every id of every
    pair is a text key of the id mapping; the list then has one edge per
    pair, in the order of the pairs, made of the two indices the mapping
    gives. *)
Theorem resolve_references_Ok id2idx raw edges :
  resolve_references id2idx raw = Ok edges ↔
  Forall2 (resolved_as id2idx) raw edges.
Proof. apply resolve_references_Forall2. Qed.

(** X22: when every index of the id mapping is below [n], every endpoint
    of every resolved edge is below [n], so the edge list passes the
    bounds check of a graph with [n] vertices. *)
Theorem resolved_edges_in_range id2idx raw edges n :
  (∀ s i, id2idx !! s = Some i → i < n) →
  resolve_references id2idx raw = Ok edges →
  Forall (fun e : nat * nat => e.1 < n ∧ e.2 < n) edges ∧
  forallb (edge_in_range n) edges = true.
Proof.
  intros Hbound Hres. apply resolve_references_Forall2 in Hres.
  assert (Forall (fun e : nat * nat => e.1 < n ∧ e.2 < n) edges) as Hall.
  { induction Hres as [|e ab raw edges (s1 & s2 & _ & H1 & H2) _ IH];
      constructor; eauto. }
  split; [done|]. by apply forallb_edge_in_range.
Qed.

(** ** create_graph, beyond the datasets of the parsers *)

(** X23: the [graph_tool] branch of [create_graph] builds no graph from
    any dataset: it uses the number of papers as a key of the dataset,
    whose keys are text. *)
Theorem create_graph_gt_never_returns (parsed_data : dataset) :
  is_ok (create_graph parsed_data false) = false.
Proof.
  unfold create_graph.
  destruct (dataset_get parsed_data "papers") as [ps|]; simpl; [|done].
  destruct (py_len ps); simpl; done.
Qed.

Lemma create_graph_needs_papers (parsed_data : dataset) withIgraph :
  parsed_data !! "papers" = None →
  create_graph parsed_data withIgraph = Err KeyError.
Proof.
  intros Hp. unfold create_graph, dataset_get, dict_getitem. rewrite Hp.
  by destruct withIgraph.
Qed.

Section LoadThenGraph.
Context `{PyLib}.

(** X24: the dataset that [load_raw] returns in [net_struct] mode cannot
    be handed to [create_graph]: it has no ["papers"] entry, and
    [create_graph] raises [KeyError] with either backend. *)
Theorem create_graph_after_net_struct data_path w w' parsed_data withIgraph :
  load_raw data_path true w = (w', Ok parsed_data) →
  create_graph parsed_data withIgraph = Err KeyError.
Proof.
  intros Hload.
  apply load_raw_Ok_inv in Hload
    as (ids & keys & rows & w2 & _ & _ & _ & _ & _ & _ & ->).
  apply create_graph_needs_papers. by simplify_map_eq.
Qed.

End LoadThenGraph.

(** ** The end of a V8 record without authors *)

Section NoAuthors.
Context `{PyLib}.

(** X25: a V8 record without an author line cannot be stored: the
    untagged line that ends it raises [IndexError], at the store into
    [papers] or at [authors[0]], whatever the state. *)
Theorem v8_finalize_no_authors st wk :
  authors wk = [] → v8_finalize st wk = Err IndexError.
Proof.
  intros Ha. unfold v8_finalize.
  destruct (list_setitem _ _ _) as [papers'|e] eqn:Hset; simpl.
  - by rewrite Ha.
  - unfold list_setitem in Hset. case_decide; [done|]. by injection Hset as <-.
Qed.

End NoAuthors.

(** ** When the parsers return *)

(** A loop over the file system whose body leaves the files alone, keeps
    [E] and succeeds exactly on the elements that [G] accepts: the loop
    succeeds exactly on the lists all of whose elements [G] accepts. *)
Lemma foldM_io_char {A B} (f : B → A → io B) (E : B → Prop)
    (G : gmap path (list string) → A → Prop) :
  (∀ b x w, E b →
     w_files (f b x w).1 = w_files w ∧
     (G (w_files w) x → ∃ b', (f b x w).2 = Ok b' ∧ E b') ∧
     (is_ok (f b x w).2 = true → G (w_files w) x)) →
  ∀ l b w, E b →
    w_files (foldM f b l w).1 = w_files w ∧
    (Forall (G (w_files w)) l → ∃ b', (foldM f b l w).2 = Ok b' ∧ E b') ∧
    (is_ok (foldM f b l w).2 = true → Forall (G (w_files w)) l).
Proof.
  intros Hf. induction l as [|x l IH]; intros b w Hb.
  - simpl. split; [done|]. split; [by exists b | by constructor].
  - cbn [foldM]. rewrite io_bind_eq.
    destruct (Hf b x w Hb) as (Hfiles & Hfw & Hbw).
    destruct (f b x w) as [w1 [b1|e]]; simpl in Hfiles, Hfw, Hbw.
    + assert (E b1) as Hb1.
      { destruct Hfw as (b' & [= <-] & Hb'); [by apply Hbw|done]. }
      destruct (IH b1 w1 Hb1) as (Hfiles' & Hfw' & Hbw').
      rewrite Hfiles in Hfiles', Hfw', Hbw'.
      split; [done|]. split.
      * intros [_ Hl]%Forall_cons. by apply Hfw'.
      * intros Hok. constructor; [by apply Hbw | by apply Hbw'].
    + simpl. split; [done|]. split; [|done].
      intros [Hx _]%Forall_cons. by destruct (Hfw Hx) as (b' & ? & _).
Qed.

Section ParserReturns.
Context `{PyLib}.

(** A state in which nothing was stored and no reference accumulated. *)
Let blank (st : pstate) : Prop :=
  papers st = [] ∧ first_authors st = ∅ ∧ collaboration_authors st = ∅ ∧
  references_flat st = [].

Lemma make_parsed_data_blank st :
  blank st → make_parsed_data st [] = make_parsed_data pstate_init [].
Proof.
  intros (Hp & Hfa & Hca & _). unfold make_parsed_data. by rewrite Hp, Hfa, Hca.
Qed.

Lemma v10_open_file_char data_path st file w :
  blank st →
  let r := (dblp ← py_open (data_path ++ ["dblp.v10"; file]) ModeR;
            lift (v10_file st (h_lines dblp))) w in
  w_files r.1 = w_files w ∧
  (w_files w !! (data_path ++ ["dblp.v10"; file]) = Some [] →
   ∃ st', r.2 = Ok st' ∧ blank st') ∧
  (is_ok r.2 = true →
   w_files w !! (data_path ++ ["dblp.v10"; file]) = Some []).
Proof.
  intros (Hp & Hfa & Hca & Hrefs). cbv zeta.
  rewrite io_bind_eq, py_open_read. cbv zeta.
  destruct (w_files w !! (data_path ++ ["dblp.v10"; file])) as [[|line lines]|].
  - unfold lift. simpl. split; [done|]. split; [|done].
    intros _. exists (next_idx st). by repeat split.
  - unfold lift. cbn [h_lines].
    pose proof (v10_file_nonempty_fails st line lines) as Hfail.
    destruct (v10_file st (line :: lines)); simpl.
    + assert (true = false); [|done]. apply Hfail. rewrite Hp. simpl. lia.
    + by repeat split.
  - simpl. by repeat split.
Qed.

(** X13: [read_v10] returns exactly when every file that the walk of
    [dblp-ref] lists exists under [dblp.v10] and has no line, and what it
    then returns is the empty dataset; a file with a line or a missing
    file makes it raise. *)
Theorem read_v10_returns_empty data_path w parsed_data :
  (read_v10 data_path w).2 = Ok parsed_data ↔
  parsed_data = make_parsed_data pstate_init [] ∧
  v10_files_empty data_path (w_files w) (w_walk w (data_path ++ ["dblp-ref"])).
Proof.
  unfold read_v10, v10_files_empty.
  rewrite io_bind_eq, os_walk_eq. rewrite io_bind_eq.
  match goal with
  | |- context [foldM ?f pstate_init ?tree ?w1] =>
      pose proof (foldM_io_char f blank
        (fun files (entry : path * list string * list string) =>
           Forall (fun file =>
                     files !! (data_path ++ ["dblp.v10"; file]) = Some [])
                  entry.2)) as Hchar;
      specialize (Hchar
        (fun b entry w Hb =>
           foldM_io_char _ blank
             (fun files file =>
                files !! (data_path ++ ["dblp.v10"; file]) = Some [])
             (fun b' file w' Hb' => v10_open_file_char data_path b' file w' Hb')
             entry.2 b w Hb));
      destruct (Hchar tree pstate_init w1) as (_ & Hfw & Hbw); [by repeat split|];
      destruct (foldM f pstate_init tree w1) as [w2 [st|e]]
  end; simpl in Hfw, Hbw.
  - assert (blank st) as Hst.
    { destruct Hfw as (b' & [= <-] & Hb'); [by apply Hbw|done]. }
    rewrite io_bind_eq. unfold lift at 1.
    destruct Hst as (Hp & Hfa & Hca & Hrefs). rewrite Hrefs. simpl.
    rewrite (make_parsed_data_blank st) by done. split.
    + intros [= <-]. split; [done|]. by apply Hbw.
    + by intros [-> _].
  - simpl. split; [done|]. intros [_ Hall].
    by destruct (Hfw Hall) as (b' & ? & _).
Qed.

Lemma v8_accepted_step s line :
  v8_accepted line →
  ∃ s', v8_line s line = Ok s' ∧ papers s'.1 = papers s.1 ∧
        first_authors s'.1 = first_authors s.1 ∧
        collaboration_authors s'.1 = collaboration_authors s.1 ∧
        references_flat s'.1 = references_flat s.1.
Proof.
  intros (H0 & c & H1 & Hne & Ht). unfold v8_line.
  rewrite (bind_Ok _ _ _ H0). change (Ascii.eqb "#" "#") with true. cbv iota.
  unfold v8_tagged. rewrite (bind_Ok _ _ _ H1).
  apply Ascii.eqb_neq in Hne. rewrite Hne.
  destruct (Ascii.eqb c "t") eqn:Et.
  - apply Ascii.eqb_eq in Et. specialize (Ht Et).
    destruct (py_int (str_slice 2 line)) as [y|]; [|done].
    destruct (Ascii.eqb c "i"); by eexists.
  - destruct (Ascii.eqb c "i"); by eexists.
Qed.

Lemma v8_accepted_loop lines :
  Forall v8_accepted lines →
  ∀ s, ∃ s', foldM v8_line s lines = Ok s' ∧ papers s'.1 = papers s.1 ∧
             first_authors s'.1 = first_authors s.1 ∧
             collaboration_authors s'.1 = collaboration_authors s.1 ∧
             references_flat s'.1 = references_flat s.1.
Proof.
  induction 1 as [|line lines Hline _ IH]; intros s.
  - by exists s.
  - destruct (v8_accepted_step s line Hline) as (s1 & Hs1 & Hp & Hfa & Hca & Hr).
    destruct (IH s1) as (s' & Hs' & Hp' & Hfa' & Hca' & Hr').
    exists s'. simpl. rewrite Hs1. simpl.
    split; [done|]. repeat split; congruence.
Qed.

Lemma v8_line_Ok_inv s line s' :
  papers s.1 = [] → v8_line s line = Ok s' →
  papers s'.1 = [] ∧
  str_index line 0 = Ok "#"%char ∧
  ∃ c extra,
    str_index line 1 = Ok c ∧
    (c = "t"%char → is_ok (py_int (str_slice 2 line)) = true) ∧
    references_flat s'.1 = references_flat s.1 ++ extra ∧
    (c = "%"%char → extra ≠ []).
Proof.
  intros Hp Hline. unfold v8_line in Hline.
  apply bind_Ok_inv in Hline as (c0 & H0 & Hline).
  destruct (Ascii.eqb "#" c0) eqn:E0.
  2:{ rewrite v8_finalize_raises in Hline; [done|]. rewrite Hp. simpl. lia. }
  apply Ascii.eqb_eq in E0 as <-.
  destruct s' as [st' wk'].
  pose proof (v8_tagged_authors _ _ _ _ _ Hline) as (Hp' & _).
  split; [simpl; congruence|]. split; [done|].
  unfold v8_tagged in Hline.
  apply bind_Ok_inv in Hline as (c & H1 & Hline).
  apply bind_Ok_inv in Hline as (wk1 & Hwk1 & Hline).
  exists c.
  assert (c = "t"%char → is_ok (py_int (str_slice 2 line)) = true) as Ht.
  { intros ->. change (Ascii.eqb "t" "t") with true in Hwk1. cbv iota in Hwk1.
    apply bind_Ok_inv in Hwk1 as (y & -> & _). done. }
  destruct (Ascii.eqb c "i");
    apply bind_Ok_inv in Hline as (st1 & Hst1 & Hline);
    injection Hline as <- <-;
    (destruct (Ascii.eqb c "%") eqn:Ep;
     [inv_binds Hst1; injection Hst1 as <-;
      eexists [_]; repeat split; [done..|]; by intros _
     |injection Hst1 as <-;
      exists []; repeat split; [done..| |];
      [simpl; by rewrite app_nil_r | intros ->; done]]).
Qed.

Lemma v8_loop_Ok_inv lines :
  ∀ s s', papers s.1 = [] → foldM v8_line s lines = Ok s' →
  ∃ extra, references_flat s'.1 = references_flat s.1 ++ extra ∧
           (extra = [] → Forall v8_accepted lines).
Proof.
  induction lines as [|line lines IH]; intros s s' Hp Hloop.
  - injection Hloop as <-. exists []. by rewrite app_nil_r.
  - simpl in Hloop. apply bind_Ok_inv in Hloop as (s1 & Hs1 & Hloop).
    destruct (v8_line_Ok_inv s line s1 Hp Hs1)
      as (Hp1 & H0 & c & e1 & H1 & Ht & Hr1 & Hpct).
    destruct (IH s1 s' Hp1 Hloop) as (e2 & Hr2 & Hall).
    exists (e1 ++ e2). split; [by rewrite Hr2, Hr1, app_assoc|].
    intros [-> ->]%app_eq_nil. constructor; [|by apply Hall].
    split; [done|]. exists c. split; [done|]. split; [|done].
    intros ->. by apply Hpct.
Qed.

(** X12: [read_v8] returns exactly when the dump exists and every line of
    it starts with [#], has a second character other than [%] and, on a
    year line, a text that [int] accepts; what it then returns is the
    empty dataset.  A line without the leading [#], a reference line, a
    line of the single character [#] or a year that is no integer makes
    it raise. *)
Theorem read_v8_returns_empty data_path w parsed_data :
  (read_v8 data_path w).2 = Ok parsed_data ↔
  parsed_data = make_parsed_data pstate_init [] ∧
  ∃ lines, w_files w !! (data_path ++ ["citation-acm-v8.txt"]) = Some lines ∧
           Forall v8_accepted lines.
Proof.
  unfold read_v8. rewrite io_bind_eq, py_open_read. cbv zeta.
  destruct (w_files w !! (data_path ++ ["citation-acm-v8.txt"])) as [lines|].
  2:{ simpl. split; [done|]. by intros (_ & lines & ? & _). }
  rewrite io_bind_eq. unfold lift at 1. cbn [h_lines].
  destruct (foldM v8_line (pstate_init, v8_defaults) lines) as [s|e] eqn:Hloop.
  - destruct (v8_loop_Ok_inv lines (pstate_init, v8_defaults) s eq_refl Hloop)
      as (extra & Hrefs & Hall).
    simpl in Hrefs. rewrite io_bind_eq. unfold lift at 1. rewrite Hrefs.
    destruct extra as [|pair extra].
    + simpl. split.
      * intros [= <-]. split; [|exists lines; split; [done|by apply Hall]].
        destruct (v8_accepted_loop lines (Hall eq_refl) (pstate_init, v8_defaults))
          as (s' & Hs' & Hp & Hfa & Hca & _).
        assert (s' = s) as -> by congruence.
        apply make_parsed_data_blank. by repeat split.
      * intros (-> & lines' & [= <-] & Hacc).
        destruct (v8_accepted_loop lines Hacc (pstate_init, v8_defaults))
          as (s' & Hs' & Hp & Hfa & Hca & _).
        assert (s' = s) as -> by congruence.
        f_equal. apply make_parsed_data_blank. by repeat split.
    + rewrite resolve_v8_pairs; [| |done].
      * simpl. split; [done|]. intros (_ & lines' & [= <-] & Hacc).
        destruct (v8_accepted_loop lines Hacc (pstate_init, v8_defaults))
          as (s' & Hs' & _ & _ & _ & Hr).
        assert (s' = s) as -> by congruence. by rewrite Hrefs in Hr.
      * rewrite <- Hrefs. by eapply v8_loop_pairs.
  - simpl. split; [done|]. intros (_ & lines' & [= <-] & Hacc).
    destruct (v8_accepted_loop lines Hacc (pstate_init, v8_defaults))
      as (s' & Hs' & _). congruence.
Qed.

End ParserReturns.

(** * Instances of the further properties *)

(** The title line [#*A] and a line too short to have a body. *)
Lemma str_slice_body_witness :
  str_slice 2 ("#*A" +:+ newline) = "A" ∧ str_slice 2 "#*" = "".
Proof.
  destruct (str_slice_body "#*" "A" "010"%char) as [Hbody Hshort].
  split; [exact Hbody|]. apply Hshort. simpl. lia.
Defined.

(** The id line [#index0001] of the first record of a dump. *)
Lemma v8_id_line_witness :
  v8_line (H := Sample.lib) (pstate_init, v8_defaults) ("#index0001" +:+ newline)
  = Ok (set_id2idx pstate_init "0001", set_paper_id v8_defaults "0001").
Proof.
  apply (v8_id_line (H := Sample.lib) pstate_init v8_defaults "ndex" "0001"
           "010"%char).
  reflexivity.
Defined.

(** The reference line [#%1], read before any id line. *)
Lemma v8_reference_line_witness :
  v8_line (H := Sample.lib) (pstate_init, v8_defaults) ("#%1" +:+ newline)
  = Ok (append_reference pstate_init (PInt (-1), PInt 1), v8_defaults).
Proof.
  destruct (v8_reference_line (H := Sample.lib) pstate_init v8_defaults "1"
              "010"%char) as [Hok _].
  apply (Hok 1%Z). reflexivity.
Defined.

(** The year line [#t2020], and a year that is no integer. *)
Lemma v8_year_line_witness :
  v8_line (H := Sample.lib) (pstate_init, v8_defaults) ("#t2020" +:+ newline)
  = Ok (pstate_init, set_year v8_defaults 2020) ∧
  v8_line (H := Sample.lib) (pstate_init, v8_defaults) ("#tMMXX" +:+ newline)
  = Err ValueError.
Proof.
  split.
  - destruct (v8_year_line (H := Sample.lib) pstate_init v8_defaults "2020"
                "010"%char) as [Hok _].
    apply (Hok 2020%Z). reflexivity.
  - destruct (v8_year_line (H := Sample.lib) pstate_init v8_defaults "MMXX"
                "010"%char) as [_ Herr].
    apply (Herr ValueError). reflexivity.
Defined.

(** A line with the unknown tag [x]. *)
Lemma v8_unknown_tag_witness :
  v8_line (H := Sample.lib) (pstate_init, v8_defaults) ("#xyz" +:+ newline)
  = Ok (pstate_init, v8_defaults).
Proof.
  apply (v8_unknown_tag (H := Sample.lib) pstate_init v8_defaults "x"%char
           ("yz" +:+ newline)).
  reflexivity.
Defined.

(** A record of id [0001] that cites the paper 1. *)
Lemma v8_references_never_resolve_witness :
  let lines := ["#index0001" +:+ newline; "#%1" +:+ newline] in
  let s := (append_reference (set_id2idx pstate_init "0001") (PStr "0001", PInt 1),
            set_paper_id v8_defaults "0001") in
  resolve_references (id2idx s.1) (references_flat s.1) = Err KeyError.
Proof.
  intros lines s.
  destruct (v8_references_never_resolve (H := Sample.lib) lines s) as [_ Hres].
  - reflexivity.
  - apply Hres. discriminate.
Defined.

(** The dump [Sample.acm] has a whole record and no untagged line:
    [read_v8] returns, and returns nothing.  With an empty line after the
    title it does not return. *)
Lemma read_v8_returns_empty_witness :
  (read_v8 (H := Sample.lib) ["data"] Sample.fs).2
  = Ok (make_parsed_data pstate_init []) ∧
  ∀ parsed_data,
    (read_v8 (H := Sample.lib) ["data"]
       {| w_files := <[["data"; "citation-acm-v8.txt"] :=
                         ["#*A" +:+ newline; newline]]> ∅;
          w_walk := fun _ => []; w_module_dir := []; w_log := [] |}).2
    ≠ Ok parsed_data.
Proof.
  split.
  - apply (read_v8_returns_empty (H := Sample.lib) ["data"] Sample.fs).
    split; [reflexivity|]. exists Sample.acm. split; [reflexivity|].
    unfold Sample.acm.
    repeat (constructor;
            [split; [reflexivity|]; eexists; split; [reflexivity|];
             split; [discriminate|];
             first [intros _; reflexivity | intros Heq; discriminate Heq]|]).
    constructor.
  - intros parsed_data Hok.
    apply (read_v8_returns_empty (H := Sample.lib)) in Hok
      as (_ & lines & Hfile & Hacc).
    vm_compute in Hfile. injection Hfile as <-.
    apply Forall_cons in Hacc as [_ Hacc].
    apply Forall_cons in Hacc as [[Hfirst _] _].
    vm_compute in Hfirst. discriminate Hfirst.
Defined.

(** The walk of [Sample.fs] lists one file, which is empty: [read_v10]
    returns, and returns nothing.  In [Sample.fs_missing] the listed file
    does not exist and [read_v10] does not return. *)
Lemma read_v10_returns_empty_witness :
  (read_v10 (H := Sample.lib) ["data"] Sample.fs).2
  = Ok (make_parsed_data pstate_init []) ∧
  ∀ parsed_data,
    (read_v10 (H := Sample.lib) ["data"] Sample.fs_missing).2 ≠ Ok parsed_data.
Proof.
  split.
  - apply (read_v10_returns_empty (H := Sample.lib) ["data"] Sample.fs).
    split; [reflexivity|].
    repeat (constructor; [|constructor]). reflexivity.
  - intros parsed_data Hok.
    apply (read_v10_returns_empty (H := Sample.lib)) in Hok as [_ Hall].
    apply Forall_cons in Hall as [Hentry _].
    apply Forall_cons in Hentry as [Hfile _].
    vm_compute in Hfile. discriminate Hfile.
Defined.

(** After the six lines of [Sample.acm], a whole record, nothing is
    stored. *)
Lemma v8_unterminated_dropped_witness :
  ∃ s', foldM (v8_line (H := Sample.lib)) (pstate_init, v8_defaults) Sample.acm
        = Ok s' ∧
        papers s'.1 = [] ∧ idx s'.1 = 0.
Proof.
  assert (is_ok (foldM (v8_line (H := Sample.lib)) (pstate_init, v8_defaults)
                   Sample.acm) = true) as Hok by (vm_compute; reflexivity).
  destruct (foldM (v8_line (H := Sample.lib)) (pstate_init, v8_defaults)
              Sample.acm) as [s'|e] eqn:Hloop; [|discriminate Hok].
  exists s'. split; [reflexivity|].
  destruct (v8_unterminated_dropped (H := Sample.lib) Sample.acm
              (pstate_init, v8_defaults) s') as (Hp & Hi & _).
  - unfold Sample.acm. repeat (constructor; [reflexivity|]). constructor.
  - exact Hloop.
  - split; [exact Hp | exact Hi].
Defined.

(** The data directory of [Sample.fs] holds the five files. *)
Lemma load_raw_full_witness :
  ∃ parsed_data,
    (load_raw (H := Sample.lib) ["data"] false Sample.fs).2 = Ok parsed_data ∧
    dom parsed_data = {["keys"; "references_flat"; "papers"; "first_authors";
                        "collaboration_authors"]}.
Proof.
  assert (is_ok (load_raw (H := Sample.lib) ["data"] false Sample.fs).2 = true)
    as Hok by (vm_compute; reflexivity).
  destruct (load_raw (H := Sample.lib) ["data"] false Sample.fs)
    as [w' [parsed_data|e]] eqn:Hload; [|discriminate Hok].
  exists parsed_data. split; [reflexivity|].
  apply (load_raw_full (H := Sample.lib) ["data"] Sample.fs w' parsed_data Hload).
Defined.

(** On [Sample.fs] both modes return, the structural result inside the
    full one. *)
Lemma load_raw_modes_agree_witness :
  ∃ structural full,
    (load_raw (H := Sample.lib) ["data"] true Sample.fs).2 = Ok structural ∧
    (load_raw (H := Sample.lib) ["data"] false Sample.fs).2 = Ok full ∧
    structural ⊆ full.
Proof.
  assert (is_ok (load_raw (H := Sample.lib) ["data"] false Sample.fs).2 = true)
    as Hok by (vm_compute; reflexivity).
  destruct (load_raw (H := Sample.lib) ["data"] false Sample.fs)
    as [w' [parsed_data|e]] eqn:Hload; [|discriminate Hok].
  destruct (load_raw_modes_agree (H := Sample.lib) ["data"] Sample.fs w'
              parsed_data Hload) as (w2 & structural & Hrun & Hsub & _).
  exists structural, parsed_data. rewrite Hrun.
  split; [reflexivity|]. split; [reflexivity | exact Hsub].
Defined.

(** A data path without an index file, and an index file whose line is
    no integer. *)
Lemma load_raw_index_file_errors_witness :
  is_ok (load_raw (H := Demo.lib) ["nowhere"] true Demo.fs).2 = false ∧
  (load_raw (H := Demo.lib) ["data"] false
     {| w_files := <[["data"; "papers_id"; "r"] := ["zero" +:+ newline]]> ∅;
        w_walk := fun _ => []; w_module_dir := []; w_log := [] |}).2
  = Err ValueError.
Proof.
  split.
  - destruct (load_raw_index_file_errors (H := Demo.lib) ["nowhere"] true Demo.fs)
      as [Hmissing _].
    apply Hmissing. vm_compute. reflexivity.
  - destruct (load_raw_index_file_errors (H := Demo.lib) ["data"] false
                {| w_files := <[["data"; "papers_id"; "r"] := ["zero" +:+ newline]]> ∅;
                   w_walk := fun _ => []; w_module_dir := []; w_log := [] |})
      as [_ Hbad].
    apply (Hbad ["zero" +:+ newline] ValueError);
      vm_compute; reflexivity.
Defined.


(** [Demo.fs] has no [dblp-ref] directory. *)
Lemma read_v10_empty_walk_witness :
  (read_v10 (H := Demo.lib) ["data"] Demo.fs).2
  = Ok (make_parsed_data pstate_init []).
Proof.
  apply (read_v10_empty_walk (H := Demo.lib) ["data"] Demo.fs). reflexivity.
Defined.

(** A paper ["b"] of index 1 that cites the paper ["a"] of index 0. *)
Lemma resolve_references_Ok_witness :
  let id2idx : gmap string nat := <["a" := 0]> (<["b" := 1]> ∅) in
  Forall2 (resolved_as id2idx) [(PStr "b", PStr "a")] [(1, 0)].
Proof.
  intros id2idx.
  apply (resolve_references_Ok id2idx [(PStr "b", PStr "a")] [(1, 0)]).
  reflexivity.
Defined.

(** A single paper that cites itself. *)
Lemma resolved_edges_in_range_witness :
  let id2idx : gmap string nat := <["a" := 0]> ∅ in
  forallb (edge_in_range 1) [(0, 0)] = true.
Proof.
  intros id2idx.
  apply (resolved_edges_in_range id2idx [(PStr "a", PStr "a")] [(0, 0)] 1).
  - intros s i Hs. apply lookup_insert_Some in Hs as [[_ <-]|[_ Hs]]; [lia|].
    by rewrite lookup_empty in Hs.
  - reflexivity.
Defined.

(** [load_raw] in [net_struct] mode on [Demo.fs], then [create_graph]. *)
Lemma create_graph_after_net_struct_witness :
  ∃ parsed_data,
    (load_raw (H := Demo.lib) ["data"] true Demo.fs).2 = Ok parsed_data ∧
    create_graph parsed_data true = Err KeyError.
Proof.
  assert (is_ok (load_raw (H := Demo.lib) ["data"] true Demo.fs).2 = true)
    as Hok by (vm_compute; reflexivity).
  destruct (load_raw (H := Demo.lib) ["data"] true Demo.fs)
    as [w' [parsed_data|e]] eqn:Hload; [|discriminate Hok].
  exists parsed_data. split; [reflexivity|].
  apply (create_graph_after_net_struct (H := Demo.lib) ["data"] Demo.fs w'
           parsed_data true Hload).
Defined.

(** The untagged first line of a dump. *)
Lemma v8_finalize_no_authors_witness :
  v8_finalize pstate_init v8_defaults = Err IndexError.
Proof. apply v8_finalize_no_authors. reflexivity. Defined.

(** Two papers, the second citing the first twice, the first citing itself. *)
Lemma create_graph_count_witness :
  create_graph (<["papers" := VInt 2]>
                  (<["references_flat" := VEdges [(1, 0); (1, 0); (0, 0)]]> ∅)) true
  = Ok ({| g_backend := Igraph; g_directed := true; g_vcount := 2;
           g_names := [0; 1]; g_edges := [(1, 0); (1, 0); (0, 0)] |}, true).
Proof.
  apply (create_graph_count 2 [(1, 0); (1, 0); (0, 0)]).
  repeat constructor.
Defined.
